(** * VibeStudio: theme store, apply engine, codec and auto-switcher

    A shallow embedding of the parts of [ThemeManager.ts],
    [ExportManager.ts], [AutoSwitcher.ts] and [ThemeCustomizer.ts] that
    decide the documented properties of the extension: the theme store
    ([saveTheme], [deleteTheme]), the backup ring ([createBackup],
    [restoreBackup]), the apply engine ([applyTheme] with
    [applyCustomEffects]), the resets, the reader of the settings
    ([getCurrentTheme]), the exporters and the importer ([exportTheme],
    [importTheme]), the scheduler ([applyTimeBasedTheme],
    [applySystemTheme], its timer and listener) and the message handler of
    the customizer panel ([handleMessage]).

    The host (VS Code configuration, extension global state, wall clock)
    is an explicit state that every operation threads through. *)

From Stdlib Require Import ZArith String Ascii List Bool Lia SpecFloat DecimalString.
From stdpp Require Import gmap strings list fin_maps.
Import ListNotations.

Local Open Scope string_scope.

(** ** JavaScript values used by the extension *)

Module Js.

(** A JavaScript number is an IEEE-754 binary64 value. *)
Definition number : Type := spec_float.

Definition prec : Z := 53.
Definition emax : Z := 1024.

(** The double of an integer literal. *)
Definition of_Z (z : Z) : number := binary_normalize prec emax z 0 false.

Definition sub (x y : number) : number := SFsub prec emax x y.
Definition mul (x y : number) : number := SFmul prec emax x y.
Definition div (x y : number) : number := SFdiv prec emax x y.

(** [x > y], [x >= y], [x < y]; all false when an operand is NaN. *)
Definition gt (x y : number) : bool := SFltb y x.
Definition ge (x y : number) : bool := SFleb y x.
Definition lt (x y : number) : bool := SFltb x y.

(** The literal [2.55]: the double nearest to 255/100. *)
Definition lit_2_55 : number := S754_finite false 5742089524897382 (-51).

(** What [Math.round] can return: an integer, an infinity or NaN.
    [-0] is identified with [0]; [toString] prints both as "0". *)
Inductive integral : Type :=
| Int (z : Z)
| Infinity (negative : bool)
| NaN.

(** [Math.round x]: the integer nearest to [x], ties towards +infinity,
    that is the floor of the exact value [x + 1/2]. *)
Definition Math_round (x : number) : integral :=
  match x with
  | S754_zero _ => Int 0
  | S754_infinity s => Infinity s
  | S754_nan => NaN
  | S754_finite s m e =>
      let n := if s then Z.neg m else Z.pos m in
      if (0 <=? e)%Z then Int (n * 2 ^ e)
      else Int ((2 * n + 2 ^ (- e)) / 2 ^ (1 - e))
  end.

Definition hex_digit (d : Z) : string :=
  String.substring (Z.to_nat d) 1 "0123456789abcdef".

(** Digits of a non-negative integer in base 16, most significant
    first; [fuel] bounds the number of digits. *)
Fixpoint hex_digits (fuel : nat) (n : Z) : string :=
  match fuel with
  | O => ""
  | S fuel' =>
      if (n <? 16)%Z then hex_digit n
      else hex_digits fuel' (n / 16) +:+ hex_digit (n mod 16)
  end.

Definition hex_of_nonneg (n : Z) : string :=
  hex_digits (S (Z.to_nat (Z.log2 n))) n.

(** [x.toString(16)] for the values [Math.round] returns. *)
Definition toString16 (x : integral) : string :=
  match x with
  | Int z => if (z <? 0)%Z then "-" +:+ hex_of_nonneg (- z) else hex_of_nonneg z
  | Infinity false => "Infinity"
  | Infinity true => "-Infinity"
  | NaN => "NaN"
  end.

Fixpoint repeat_string (n : nat) (pad : string) : string :=
  match n with
  | O => ""
  | S n' => pad +:+ repeat_string n' pad
  end.

(** [s.padStart(n, pad)] for a one-character [pad]. *)
Definition padStart (n : nat) (pad : string) (s : string) : string :=
  repeat_string (n - String.length s) pad +:+ s.

(** Truthiness of an optional string: [undefined] and [""] are falsy. *)
Definition truthy (s : option string) : bool :=
  match s with
  | Some s' => negb (String.eqb s' "")
  | None => false
  end.

(** [a || b] on an optional string. *)
Definition or_else (a : option string) (b : string) : string :=
  match a with
  | Some s => if String.eqb s "" then b else s
  | None => b
  end.

(** A value held under a key of a settings object: a string, an own
    property whose value is [undefined], or any other JSON value (kept
    as its text). *)
Inductive value : Type :=
| undefined
| str (s : string)
| other (json : string).

Definition of_option (o : option string) : value :=
  match o with
  | Some s => str s
  | None => undefined
  end.

(** An object literal: later entries win over earlier ones. *)
Definition object {V : Type} (entries : list (string * V)) : gmap string V :=
  fold_left (fun o kv => <[kv.1 := kv.2]> o) entries ∅.

(** [Object.assign(target, source)]: every own key of [source] is
    written onto [target]. *)
Definition Object_assign {V : Type} (target source : gmap string V)
  : gmap string V :=
  source ∪ target.

End Js.

(** ** The theme document ([TerminalTheme]) *)

Inductive FontWeight : Type :=
| weight_normal | weight_bold
| weight_100 | weight_200 | weight_300 | weight_400 | weight_500
| weight_600 | weight_700 | weight_800 | weight_900.

Definition FontWeight_string (w : FontWeight) : string :=
  match w with
  | weight_normal => "normal" | weight_bold => "bold"
  | weight_100 => "100" | weight_200 => "200" | weight_300 => "300"
  | weight_400 => "400" | weight_500 => "500" | weight_600 => "600"
  | weight_700 => "700" | weight_800 => "800" | weight_900 => "900"
  end.

Inductive CursorStyle : Type := style_block | style_line | style_underline.

Definition CursorStyle_string (s : CursorStyle) : string :=
  match s with
  | style_block => "block" | style_line => "line" | style_underline => "underline"
  end.

Record Font : Type := {
  font_family : string;
  font_size : Js.number;
  font_weight : FontWeight;
  font_ligatures : bool;
  font_lineHeight : Js.number
}.

Record Cursor : Type := {
  cursor_style : CursorStyle;
  cursor_blinking : bool;
  cursor_color : string
}.

Record TerminalTab : Type := {
  colors_tab_activeForeground : string;
  colors_tab_activeBackground : string;
  colors_tab_inactiveForeground : string;
  colors_tab_inactiveBackground : string;
  colors_tab_border : string
}.

Record Colors : Type := {
  colors_background : string;
  colors_foreground : string;
  colors_selection : string;
  colors_selectionBackground : string;
  colors_ansiBlack : string;
  colors_ansiRed : string;
  colors_ansiGreen : string;
  colors_ansiYellow : string;
  colors_ansiBlue : string;
  colors_ansiMagenta : string;
  colors_ansiCyan : string;
  colors_ansiWhite : string;
  colors_ansiBrightBlack : string;
  colors_ansiBrightRed : string;
  colors_ansiBrightGreen : string;
  colors_ansiBrightYellow : string;
  colors_ansiBrightBlue : string;
  colors_ansiBrightMagenta : string;
  colors_ansiBrightCyan : string;
  colors_ansiBrightWhite : string;
  colors_border : string;
  colors_tab : TerminalTab
}.

Record EditorCore : Type := {
  editor_background : string;
  editor_foreground : string;
  editor_selectionBackground : string;
  editor_selectionForeground : option string;
  editor_lineHighlightBackground : string;
  editor_cursorColor : string;
  editor_indentGuideBackground : string;
  editor_indentGuideActiveBackground : string
}.

Record ActivityBar : Type := {
  activityBar_background : string;
  activityBar_foreground : string;
  activityBar_inactiveForeground : string;
  activityBar_border : string;
  activityBar_activeBorder : string;
  activityBar_activeBackground : string
}.

Record SideBar : Type := {
  sideBar_background : string;
  sideBar_foreground : string;
  sideBar_border : string
}.

Record SideBarSectionHeader : Type := {
  sideBarSectionHeader_background : string;
  sideBarSectionHeader_foreground : string;
  sideBarSectionHeader_border : string
}.

Record PanelTitle : Type := {
  panelTitle_background : string;
  panelTitle_activeForeground : string;
  panelTitle_activeBorder : string;
  panelTitle_inactiveForeground : string
}.

Record StatusBar : Type := {
  statusBar_background : string;
  statusBar_foreground : string;
  statusBar_border : string;
  statusBar_debuggingBackground : string;
  statusBar_debuggingForeground : string;
  statusBar_noFolderBackground : string;
  statusBar_noFolderForeground : string
}.

Record TitleBar : Type := {
  titleBar_activeBackground : string;
  titleBar_activeForeground : string;
  titleBar_inactiveBackground : string;
  titleBar_inactiveForeground : string;
  titleBar_border : string
}.

Record Panel : Type := {
  panel_background : string;
  panel_border : string;
  panel_dropBorder : string
}.

Record EditorTab : Type := {
  tab_activeBackground : string;
  tab_activeForeground : string;
  tab_activeBorder : string;
  tab_activeBorderTop : string;
  tab_inactiveBackground : string;
  tab_inactiveForeground : string;
  tab_inactiveModifiedBorder : string;
  tab_unfocusedActiveBackground : string;
  tab_unfocusedActiveForeground : string;
  tab_unfocusedInactiveBackground : string;
  tab_unfocusedInactiveForeground : string;
  tab_border : string
}.

Record Input : Type := {
  input_background : string;
  input_foreground : string;
  input_border : string;
  input_placeholderForeground : string
}.

Record Dropdown : Type := {
  dropdown_background : string;
  dropdown_foreground : string;
  dropdown_border : string
}.

Record Button : Type := {
  button_background : string;
  button_foreground : string;
  button_hoverBackground : string;
  button_secondaryBackground : string;
  button_secondaryForeground : string;
  button_secondaryHoverBackground : string
}.

Record Checkbox : Type := {
  checkbox_background : string;
  checkbox_foreground : string;
  checkbox_border : string
}.

Record Badge : Type := {
  badge_background : string;
  badge_foreground : string
}.

Record ProgressBar : Type := {
  progressBar_background : string
}.

Record ListTree : Type := {
  list_activeSelectionBackground : string;
  list_activeSelectionForeground : string;
  list_inactiveSelectionBackground : string;
  list_inactiveSelectionForeground : string;
  list_hoverBackground : string;
  list_hoverForeground : string;
  list_focusBackground : string;
  list_focusForeground : string
}.

Record Scrollbar : Type := {
  scrollbar_shadow : string
}.

Record Syntax : Type := {
  syntax_comment : string;
  syntax_keyword : string;
  syntax_string : string;
  syntax_number : string;
  syntax_function : string;
  syntax_variable : string;
  syntax_type : string;
  syntax_class : string;
  syntax_interface : string;
  syntax_namespace : string;
  syntax_operator : string;
  syntax_punctuation : string;
  syntax_constant : string;
  syntax_property : string;
  syntax_tag : string;
  syntax_attribute : string
}.

(** [sideBarSectionHeader] and [panelTitle] are read with [?.] by
    [applyTheme], so a document may lack them. *)
Record EditorTheme : Type := {
  et_editor : EditorCore;
  et_activityBar : ActivityBar;
  et_sideBar : SideBar;
  et_sideBarSectionHeader : option SideBarSectionHeader;
  et_panelTitle : option PanelTitle;
  et_statusBar : StatusBar;
  et_titleBar : TitleBar;
  et_panel : Panel;
  et_tab : EditorTab;
  et_input : Input;
  et_dropdown : Dropdown;
  et_button : Button;
  et_checkbox : Checkbox;
  et_badge : Badge;
  et_progressBar : ProgressBar;
  et_list : ListTree;
  et_scrollbar : Scrollbar;
  et_syntax : Syntax
}.

Record Integration : Type := {
  applyToEditor : bool;
  applyToTerminal : bool;
  applyToWorkbench : bool;
  customCss : option string
}.

Record Effects : Type := {
  transparency : Js.number;
  blur : Js.number;
  animations : bool;
  particleEffects : bool;
  glowEffect : bool;
  scanlines : bool;
  crtEffect : bool
}.

Record TerminalTheme : Type := {
  theme_name : string;
  theme_version : string;
  theme_author : option string;
  theme_description : option string;
  theme_created : string;
  theme_modified : string;
  theme_font : Font;
  theme_cursor : Cursor;
  theme_colors : Colors;
  theme_editorTheme : option EditorTheme;
  theme_integration : Integration;
  theme_effects : Effects
}.

(** Field assignments [theme.modified = v], [theme.created = v]. *)
Definition set_modified (v : string) (t : TerminalTheme) : TerminalTheme :=
  {| theme_name := theme_name t; theme_version := theme_version t;
     theme_author := theme_author t; theme_description := theme_description t;
     theme_created := theme_created t; theme_modified := v;
     theme_font := theme_font t; theme_cursor := theme_cursor t;
     theme_colors := theme_colors t; theme_editorTheme := theme_editorTheme t;
     theme_integration := theme_integration t; theme_effects := theme_effects t |}.

Definition set_created (v : string) (t : TerminalTheme) : TerminalTheme :=
  {| theme_name := theme_name t; theme_version := theme_version t;
     theme_author := theme_author t; theme_description := theme_description t;
     theme_created := v; theme_modified := theme_modified t;
     theme_font := theme_font t; theme_cursor := theme_cursor t;
     theme_colors := theme_colors t; theme_editorTheme := theme_editorTheme t;
     theme_integration := theme_integration t; theme_effects := theme_effects t |}.

(** ** The host: configuration store, global state, clock *)

Inductive RuleScope : Type :=
| scope_one (s : string)
| scope_many (l : list string).

Record TextMateRule : Type := {
  rule_scope : RuleScope;
  rule_foreground : string
}.

Record TokenColorCustomizations : Type := {
  token_comments : string;
  token_keywords : string;
  token_strings : string;
  token_numbers : string;
  token_functions : string;
  token_variables : string;
  token_types : string;
  token_textMateRules : list TextMateRule
}.

(** A value of the configuration store. [setting_undefined] is what
    [config.get] returns for an unset key and what [config.update] takes to
    unset one; the store itself never holds it. *)
Inductive Setting : Type :=
| setting_undefined
| setting_string (s : string)
| setting_number (n : Js.number)
| setting_bool (b : bool)
| setting_colors (m : gmap string Js.value)
| setting_tokens (t : TokenColorCustomizations)
| setting_other (json : string).

(** [ThemeBackup]. *)
Record ThemeBackup : Type := {
  backup_timestamp : string;
  backup_settings : gmap string Setting;
  backup_theme : option TerminalTheme
}.

(** The state the operations act on: the configuration store with the
    sequence of [config.update] calls made so far (oldest first), the
    extension's global state, the [backups] field of the [ThemeManager]
    object, and the wall clock, read by [new Date().toISOString()]. *)
Record State : Type := {
  configuration : gmap string Setting;
  updates : list (string * Setting);
  savedThemes : list TerminalTheme;        (* "vibestudio.savedThemes" *)
  currentTheme : option TerminalTheme;     (* "vibestudio.currentTheme" *)
  storedBackups : list ThemeBackup;        (* "termistyle.backups" *)
  backups : list ThemeBackup;              (* this.backups *)
  clock : nat -> string;
  clock_reads : nat
}.

Definition with_configuration (c : gmap string Setting) (u : list (string * Setting))
    (st : State) : State :=
  {| configuration := c; updates := u; savedThemes := savedThemes st;
     currentTheme := currentTheme st; storedBackups := storedBackups st;
     backups := backups st; clock := clock st; clock_reads := clock_reads st |}.

Definition with_savedThemes (l : list TerminalTheme) (st : State) : State :=
  {| configuration := configuration st; updates := updates st; savedThemes := l;
     currentTheme := currentTheme st; storedBackups := storedBackups st;
     backups := backups st; clock := clock st; clock_reads := clock_reads st |}.

Definition with_currentTheme (t : option TerminalTheme) (st : State) : State :=
  {| configuration := configuration st; updates := updates st;
     savedThemes := savedThemes st; currentTheme := t;
     storedBackups := storedBackups st; backups := backups st;
     clock := clock st; clock_reads := clock_reads st |}.

Definition with_backups (l : list ThemeBackup) (st : State) : State :=
  {| configuration := configuration st; updates := updates st;
     savedThemes := savedThemes st; currentTheme := currentTheme st;
     storedBackups := storedBackups st; backups := l;
     clock := clock st; clock_reads := clock_reads st |}.

Definition with_storedBackups (l : list ThemeBackup) (st : State) : State :=
  {| configuration := configuration st; updates := updates st;
     savedThemes := savedThemes st; currentTheme := currentTheme st;
     storedBackups := l; backups := backups st;
     clock := clock st; clock_reads := clock_reads st |}.

(** [new Date().toISOString()]: the next reading of the clock. *)
Definition Date_now (st : State) : string * State :=
  (clock st (clock_reads st),
   {| configuration := configuration st; updates := updates st;
      savedThemes := savedThemes st; currentTheme := currentTheme st;
      storedBackups := storedBackups st; backups := backups st;
      clock := clock st; clock_reads := S (clock_reads st) |}).

(** [config.get(key)]. *)
Definition config_get (key : string) (st : State) : Setting :=
  default setting_undefined (configuration st !! key).

(** The effect of one update on the store: [undefined] unsets the key. *)
Definition store (c : gmap string Setting) (update : string * Setting)
  : gmap string Setting :=
  match update.2 with
  | setting_undefined => delete update.1 c
  | v => <[update.1 := v]> c
  end.

(** [config.update(key, value, Global)]. *)
Definition config_update (key : string) (v : Setting) (st : State) : State :=
  with_configuration
    (store (configuration st) (key, v))
    (updates st ++ [(key, v)])
    st.

(** [config.get("workbench.colorCustomizations", {})]; the host's schema
    makes this setting an object. *)
Definition get_colorCustomizations (st : State) : gmap string Js.value :=
  match configuration st !! "workbench.colorCustomizations" with
  | Some (setting_colors m) => m
  | _ => ∅
  end.

(** Truthiness of a setting read with a default of [true]: [false], [0],
    [NaN], the empty string and [null] are falsy, every object and array
    is truthy. A [setting_other] holds the text [JSON.stringify] gives. *)
Definition get_bool_default_true (key : string) (st : State) : bool :=
  match configuration st !! key with
  | None | Some setting_undefined => true
  | Some (setting_bool b) => b
  | Some (setting_string s) => negb (String.eqb s "")
  | Some (setting_number n) =>
      match n with S754_zero _ | S754_nan => false | _ => true end
  | Some (setting_colors _) | Some (setting_tokens _) => true
  | Some (setting_other json) => negb (String.eqb json "null")
  end.

(** ** ThemeManager *)

Section ThemeManager.

(** [getCurrentTheme] reads the settings back into a document; it is a
    function of the configuration and of its two clock readings
    ([created], [modified]). Its result is only stored inside backup
    snapshots, so it is left as a parameter here. *)
Variable getCurrentTheme :
  gmap string Setting -> string -> string -> TerminalTheme.

(** [themes.findIndex((t) => t.name === theme.name)]; [None] is [-1]. *)
Definition findIndex (name : string) (themes : list TerminalTheme)
  : option nat :=
  fst <$> list_find (fun t => theme_name t = name) themes.

(** [saveTheme]: upsert by name. *)
Definition saveTheme (theme : TerminalTheme) (st : State) : State :=
  let themes := savedThemes st in
  let existingIndex := findIndex (theme_name theme) themes in
  let '(now, st) := Date_now st in
  let theme := set_modified now theme in
  match existingIndex with
  | Some i => with_savedThemes (<[i := theme]> themes) st
  | None =>
      let '(now', st) := Date_now st in
      let theme := set_created now' theme in
      with_savedThemes (themes ++ [theme]) st
  end.

(** The [unshift] and [slice(0, 10)] of [createBackup]. *)
Definition push_backup (backup : ThemeBackup) (ring : list ThemeBackup)
  : list ThemeBackup :=
  let ring := backup :: ring in
  if (10 <? length ring)%nat then take 10 ring else ring.

(** [createBackup]. *)
Definition createBackup (st : State) : State :=
  let '(created, st) := Date_now st in
  let '(modified, st) := Date_now st in
  let current := getCurrentTheme (configuration st) created modified in
  let '(timestamp, st) := Date_now st in
  let backup :=
    {| backup_timestamp := timestamp;
       backup_settings := Js.object [
         ("terminal.integrated.fontFamily", config_get "terminal.integrated.fontFamily" st);
         ("terminal.integrated.fontSize", config_get "terminal.integrated.fontSize" st);
         ("terminal.integrated.fontWeight", config_get "terminal.integrated.fontWeight" st);
         ("terminal.integrated.lineHeight", config_get "terminal.integrated.lineHeight" st);
         ("terminal.integrated.cursorStyle", config_get "terminal.integrated.cursorStyle" st);
         ("terminal.integrated.cursorBlinking", config_get "terminal.integrated.cursorBlinking" st);
         ("workbench.colorTheme", config_get "workbench.colorTheme" st);
         ("workbench.colorCustomizations", config_get "workbench.colorCustomizations" st)
       ];
       backup_theme := Some current |} in
  let ring := push_backup backup (backups st) in
  with_storedBackups ring (with_backups ring st).

(** The object literal [terminalColors] of [applyTheme]. *)
Definition terminalColors (theme : TerminalTheme) : gmap string Js.value :=
  Js.object [
    ("terminal.background", Js.str (colors_background (theme_colors theme)));
    ("terminal.foreground", Js.str (colors_foreground (theme_colors theme)));
    ("terminal.selectionBackground", Js.str (colors_selectionBackground (theme_colors theme)));
    ("terminal.ansiBlack", Js.str (colors_ansiBlack (theme_colors theme)));
    ("terminal.ansiRed", Js.str (colors_ansiRed (theme_colors theme)));
    ("terminal.ansiGreen", Js.str (colors_ansiGreen (theme_colors theme)));
    ("terminal.ansiYellow", Js.str (colors_ansiYellow (theme_colors theme)));
    ("terminal.ansiBlue", Js.str (colors_ansiBlue (theme_colors theme)));
    ("terminal.ansiMagenta", Js.str (colors_ansiMagenta (theme_colors theme)));
    ("terminal.ansiCyan", Js.str (colors_ansiCyan (theme_colors theme)));
    ("terminal.ansiWhite", Js.str (colors_ansiWhite (theme_colors theme)));
    ("terminal.ansiBrightBlack", Js.str (colors_ansiBrightBlack (theme_colors theme)));
    ("terminal.ansiBrightRed", Js.str (colors_ansiBrightRed (theme_colors theme)));
    ("terminal.ansiBrightGreen", Js.str (colors_ansiBrightGreen (theme_colors theme)));
    ("terminal.ansiBrightYellow", Js.str (colors_ansiBrightYellow (theme_colors theme)));
    ("terminal.ansiBrightBlue", Js.str (colors_ansiBrightBlue (theme_colors theme)));
    ("terminal.ansiBrightMagenta", Js.str (colors_ansiBrightMagenta (theme_colors theme)));
    ("terminal.ansiBrightCyan", Js.str (colors_ansiBrightCyan (theme_colors theme)));
    ("terminal.ansiBrightWhite", Js.str (colors_ansiBrightWhite (theme_colors theme)));
    ("terminal.border", Js.str (colors_border (theme_colors theme)));
    ("terminalCursor.foreground", Js.str (cursor_color (theme_cursor theme)));
    ("terminalCursor.background", Js.str (colors_background (theme_colors theme)))
  ].

(** The object literal [editorColors] of [applyTheme]. *)
Definition editorColors (et : EditorTheme) : gmap string Js.value :=
  Js.object [
    ("editor.background", Js.str (editor_background (et_editor et)));
    ("editor.foreground", Js.str (editor_foreground (et_editor et)));
    ("editor.selectionBackground", Js.str (editor_selectionBackground (et_editor et)));
    ("editor.selectionForeground", Js.of_option (editor_selectionForeground (et_editor et)));
    ("editor.lineHighlightBackground", Js.str (editor_lineHighlightBackground (et_editor et)));
    ("editorCursor.foreground", Js.str (editor_cursorColor (et_editor et)));
    ("editorIndentGuide.background", Js.str (editor_indentGuideBackground (et_editor et)));
    ("editorIndentGuide.activeBackground", Js.str (editor_indentGuideActiveBackground (et_editor et)));
    ("activityBar.background", Js.str (activityBar_background (et_activityBar et)));
    ("activityBar.foreground", Js.str (activityBar_foreground (et_activityBar et)));
    ("activityBar.inactiveForeground", Js.str (activityBar_inactiveForeground (et_activityBar et)));
    ("activityBar.border", Js.str (activityBar_border (et_activityBar et)));
    ("activityBar.activeBorder", Js.str (activityBar_activeBorder (et_activityBar et)));
    ("activityBar.activeBackground", Js.str (activityBar_activeBackground (et_activityBar et)));
    ("sideBar.background", Js.str (sideBar_background (et_sideBar et)));
    ("sideBar.foreground", Js.str (sideBar_foreground (et_sideBar et)));
    ("sideBar.border", Js.str (sideBar_border (et_sideBar et)));
    ("sideBarSectionHeader.background", Js.of_option (sideBarSectionHeader_background <$> et_sideBarSectionHeader et));
    ("sideBarSectionHeader.foreground", Js.of_option (sideBarSectionHeader_foreground <$> et_sideBarSectionHeader et));
    ("sideBarSectionHeader.border", Js.of_option (sideBarSectionHeader_border <$> et_sideBarSectionHeader et));
    ("panel.background", Js.of_option (panelTitle_background <$> et_panelTitle et));
    ("panelTitle.activeForeground", Js.of_option (panelTitle_activeForeground <$> et_panelTitle et));
    ("panelTitle.activeBorder", Js.of_option (panelTitle_activeBorder <$> et_panelTitle et));
    ("panelTitle.inactiveForeground", Js.of_option (panelTitle_inactiveForeground <$> et_panelTitle et));
    ("statusBar.background", Js.str (statusBar_background (et_statusBar et)));
    ("statusBar.foreground", Js.str (statusBar_foreground (et_statusBar et)));
    ("statusBar.border", Js.str (statusBar_border (et_statusBar et)));
    ("statusBar.debuggingBackground", Js.str (statusBar_debuggingBackground (et_statusBar et)));
    ("statusBar.debuggingForeground", Js.str (statusBar_debuggingForeground (et_statusBar et)));
    ("statusBar.noFolderBackground", Js.str (statusBar_noFolderBackground (et_statusBar et)));
    ("statusBar.noFolderForeground", Js.str (statusBar_noFolderForeground (et_statusBar et)));
    ("titleBar.activeBackground", Js.str (titleBar_activeBackground (et_titleBar et)));
    ("titleBar.activeForeground", Js.str (titleBar_activeForeground (et_titleBar et)));
    ("titleBar.inactiveBackground", Js.str (titleBar_inactiveBackground (et_titleBar et)));
    ("titleBar.inactiveForeground", Js.str (titleBar_inactiveForeground (et_titleBar et)));
    ("titleBar.border", Js.str (titleBar_border (et_titleBar et)));
    ("tab.activeBackground", Js.str (tab_activeBackground (et_tab et)));
    ("tab.activeForeground", Js.str (tab_activeForeground (et_tab et)));
    ("tab.activeBorder", Js.str (tab_activeBorder (et_tab et)));
    ("tab.activeBorderTop", Js.str (tab_activeBorderTop (et_tab et)));
    ("tab.inactiveBackground", Js.str (tab_inactiveBackground (et_tab et)));
    ("tab.inactiveForeground", Js.str (tab_inactiveForeground (et_tab et)));
    ("tab.inactiveModifiedBorder", Js.str (tab_inactiveModifiedBorder (et_tab et)));
    ("tab.unfocusedActiveBackground", Js.str (tab_unfocusedActiveBackground (et_tab et)));
    ("tab.unfocusedActiveForeground", Js.str (tab_unfocusedActiveForeground (et_tab et)));
    ("tab.unfocusedInactiveBackground", Js.str (tab_unfocusedInactiveBackground (et_tab et)));
    ("tab.unfocusedInactiveForeground", Js.str (tab_unfocusedInactiveForeground (et_tab et)));
    ("tab.border", Js.str (tab_border (et_tab et)));
    ("input.background", Js.str (input_background (et_input et)));
    ("input.foreground", Js.str (input_foreground (et_input et)));
    ("input.border", Js.str (input_border (et_input et)));
    ("input.placeholderForeground", Js.str (input_placeholderForeground (et_input et)));
    ("dropdown.background", Js.str (dropdown_background (et_dropdown et)));
    ("dropdown.foreground", Js.str (dropdown_foreground (et_dropdown et)));
    ("dropdown.border", Js.str (dropdown_border (et_dropdown et)));
    ("button.background", Js.str (button_background (et_button et)));
    ("button.foreground", Js.str (button_foreground (et_button et)));
    ("button.hoverBackground", Js.str (button_hoverBackground (et_button et)));
    ("button.secondaryBackground", Js.str (button_secondaryBackground (et_button et)));
    ("button.secondaryForeground", Js.str (button_secondaryForeground (et_button et)));
    ("button.secondaryHoverBackground", Js.str (button_secondaryHoverBackground (et_button et)));
    ("checkbox.background", Js.str (checkbox_background (et_checkbox et)));
    ("checkbox.foreground", Js.str (checkbox_foreground (et_checkbox et)));
    ("checkbox.border", Js.str (checkbox_border (et_checkbox et)));
    ("badge.background", Js.str (badge_background (et_badge et)));
    ("badge.foreground", Js.str (badge_foreground (et_badge et)));
    ("progressBar.background", Js.str (progressBar_background (et_progressBar et)));
    ("list.activeSelectionBackground", Js.str (list_activeSelectionBackground (et_list et)));
    ("list.activeSelectionForeground", Js.str (list_activeSelectionForeground (et_list et)));
    ("list.inactiveSelectionBackground", Js.str (list_inactiveSelectionBackground (et_list et)));
    ("list.inactiveSelectionForeground", Js.str (list_inactiveSelectionForeground (et_list et)));
    ("list.hoverBackground", Js.str (list_hoverBackground (et_list et)));
    ("list.hoverForeground", Js.str (list_hoverForeground (et_list et)));
    ("list.focusBackground", Js.str (list_focusBackground (et_list et)));
    ("list.focusForeground", Js.str (list_focusForeground (et_list et)))
  ].

(** The object literal [tokenColorCustomizations] of [applyTheme]. *)
Definition tokenColorCustomizations (et : EditorTheme)
  : TokenColorCustomizations :=
  let syntax := et_syntax et in
  {| token_comments := syntax_comment syntax;
     token_keywords := syntax_keyword syntax;
     token_strings := syntax_string syntax;
     token_numbers := syntax_number syntax;
     token_functions := syntax_function syntax;
     token_variables := syntax_variable syntax;
     token_types := syntax_type syntax;
     token_textMateRules := [
       {| rule_scope := scope_one "comment";
          rule_foreground := syntax_comment syntax |};
       {| rule_scope := scope_many ["keyword"; "storage.type"; "storage.modifier"];
          rule_foreground := syntax_keyword syntax |};
       {| rule_scope := scope_many ["string"; "string.quoted"];
          rule_foreground := syntax_string syntax |};
       {| rule_scope := scope_many ["constant.numeric"; "constant.language"];
          rule_foreground := syntax_number syntax |};
       {| rule_scope := scope_many ["entity.name.function"; "support.function"];
          rule_foreground := syntax_function syntax |};
       {| rule_scope := scope_many ["variable"; "variable.other"];
          rule_foreground := syntax_variable syntax |};
       {| rule_scope := scope_many ["entity.name.type"; "support.type"; "storage.type"];
          rule_foreground := syntax_type syntax |};
       {| rule_scope := scope_many ["entity.name.class"; "support.class"];
          rule_foreground := syntax_class syntax |}
     ] |}.

(** The fallback written when [applyToEditor] is set without an
    [editorTheme]. *)
Definition basicEditorColors (theme : TerminalTheme) : gmap string Js.value :=
  Js.object [
    ("editor.background", Js.str (colors_background (theme_colors theme)));
    ("editor.foreground", Js.str (colors_foreground (theme_colors theme)));
    ("editor.selectionBackground", Js.str (colors_selectionBackground (theme_colors theme)))
  ].

(** The fallback written when [applyToWorkbench] is set without an
    [editorTheme]. *)
Definition basicWorkbenchColors (theme : TerminalTheme) : gmap string Js.value :=
  Js.object [
    ("sideBar.background", Js.str (colors_background (theme_colors theme)));
    ("activityBar.background", Js.str (colors_background (theme_colors theme)));
    ("statusBar.background", Js.str (colors_background (theme_colors theme)));
    ("titleBar.activeBackground", Js.str (colors_background (theme_colors theme)))
  ].

(** [Math.round((100 - transparency) * 2.55).toString(16).padStart(2, "0")]. *)
Definition alpha (transparency : Js.number) : string :=
  Js.padStart 2 "0"
    (Js.toString16
       (Js.Math_round (Js.mul (Js.sub (Js.of_Z 100) transparency) Js.lit_2_55))).

(** [applyCustomEffects]. *)
Definition applyCustomEffects (theme : TerminalTheme) (st : State) : State :=
  if Js.gt (transparency (theme_effects theme)) (Js.of_Z 0) then
    let colorCustomizations := get_colorCustomizations st in
    let alpha := alpha (transparency (theme_effects theme)) in
    let colorCustomizations :=
      <["terminal.background" :=
          Js.str (colors_background (theme_colors theme) +:+ alpha)]>
        colorCustomizations in
    config_update "workbench.colorCustomizations"
      (setting_colors colorCustomizations) st
  else st.

(** [applyTheme]. *)
Definition applyTheme (theme : TerminalTheme) (st : State) : State :=
  (* Create backup before applying *)
  let st :=
    if get_bool_default_true "vibestudio.backup.enabled" st
    then createBackup st else st in
  (* Clear the base color theme when applying a custom theme *)
  let st := config_update "workbench.colorTheme" setting_undefined st in
  let colorCustomizations := get_colorCustomizations st in
  (* Apply font settings *)
  let st := config_update "terminal.integrated.fontFamily"
              (setting_string (font_family (theme_font theme))) st in
  let st := config_update "terminal.integrated.fontSize"
              (setting_number (font_size (theme_font theme))) st in
  let st := config_update "terminal.integrated.fontWeight"
              (setting_string (FontWeight_string (font_weight (theme_font theme)))) st in
  let st := config_update "terminal.integrated.lineHeight"
              (setting_number (font_lineHeight (theme_font theme))) st in
  (* Apply cursor settings *)
  let st := config_update "terminal.integrated.cursorStyle"
              (setting_string (CursorStyle_string (cursor_style (theme_cursor theme)))) st in
  let st := config_update "terminal.integrated.cursorBlinking"
              (setting_bool (cursor_blinking (theme_cursor theme))) st in
  (* Apply additional integrations *)
  let '(colorCustomizations, st) :=
    match applyToEditor (theme_integration theme), theme_editorTheme theme with
    | true, Some et =>
        (* Apply comprehensive editor theme *)
        (Js.Object_assign colorCustomizations (editorColors et),
         config_update "editor.tokenColorCustomizations"
           (setting_tokens (tokenColorCustomizations et)) st)
    | true, None =>
        (* Fallback to basic editor colors if no editorTheme data *)
        (Js.Object_assign colorCustomizations (basicEditorColors theme), st)
    | false, _ => (colorCustomizations, st)
    end in
  let colorCustomizations :=
    match applyToWorkbench (theme_integration theme), theme_editorTheme theme with
    | true, None =>
        (* Basic workbench colors if no editor theme *)
        Js.Object_assign colorCustomizations (basicWorkbenchColors theme)
    | _, _ => colorCustomizations
    end in
  (* Merge terminal colors with existing customizations *)
  let colorCustomizations :=
    Js.Object_assign colorCustomizations (terminalColors theme) in
  let st := config_update "workbench.colorCustomizations"
              (setting_colors colorCustomizations) st in
  (* Apply font ligatures if supported *)
  let st :=
    if font_ligatures (theme_font theme)
    then config_update "editor.fontLigatures" (setting_bool true) st else st in
  (* Apply custom CSS for effects *)
  let st :=
    if Js.truthy (customCss (theme_integration theme))
    then applyCustomEffects theme st else st in
  (* Store current applied theme *)
  with_currentTheme (Some theme) st.

End ThemeManager.


(** ** ExportManager *)

(** A parsed JSON document. *)
Unset Elimination Schemes.
Inductive Json : Type :=
| json_null
| json_bool (b : bool)
| json_number (n : Js.number)
| json_string (s : string)
| json_array (items : list Json)
| json_object (fields : list (string * Json)).
Set Elimination Schemes.

(** [ImportedTheme]; [theme] is the partial document as a JSON object. *)
Record ImportedTheme : Type := {
  imported_source : string;
  imported_format : string;
  imported_theme : Json;
  imported_warnings : list string
}.

Definition newline : string := String (ascii_of_nat 10) "".

Definition lines (l : list string) : string := String.concat newline l.

(** [exportToAlacritty]: the template literal, line by line. *)
Definition exportToAlacritty (theme : TerminalTheme) : string :=
  let colors := theme_colors theme in
  lines [
    "# " +:+ theme_name theme +:+ " - "
      +:+ Js.or_else (theme_description theme) "TermiStyle theme";
    "colors:";
    "  primary:";
    "    background: '" +:+ colors_background colors +:+ "'";
    "    foreground: '" +:+ colors_foreground colors +:+ "'";
    "  ";
    "  normal:";
    "    black:   '" +:+ colors_ansiBlack colors +:+ "'";
    "    red:     '" +:+ colors_ansiRed colors +:+ "'";
    "    green:   '" +:+ colors_ansiGreen colors +:+ "'";
    "    yellow:  '" +:+ colors_ansiYellow colors +:+ "'";
    "    blue:    '" +:+ colors_ansiBlue colors +:+ "'";
    "    magenta: '" +:+ colors_ansiMagenta colors +:+ "'";
    "    cyan:    '" +:+ colors_ansiCyan colors +:+ "'";
    "    white:   '" +:+ colors_ansiWhite colors +:+ "'";
    "  ";
    "  bright:";
    "    black:   '" +:+ colors_ansiBrightBlack colors +:+ "'";
    "    red:     '" +:+ colors_ansiBrightRed colors +:+ "'";
    "    green:   '" +:+ colors_ansiBrightGreen colors +:+ "'";
    "    yellow:  '" +:+ colors_ansiBrightYellow colors +:+ "'";
    "    blue:    '" +:+ colors_ansiBrightBlue colors +:+ "'";
    "    magenta: '" +:+ colors_ansiBrightMagenta colors +:+ "'";
    "    cyan:    '" +:+ colors_ansiBrightCyan colors +:+ "'";
    "    white:   '" +:+ colors_ansiBrightWhite colors +:+ "'"
  ].

(** The eighteen colour fields [exportToAlacritty] prints. *)
Definition alacrittyColourFields : list (Colors -> string) :=
  [ colors_background; colors_foreground;
    colors_ansiBlack; colors_ansiRed; colors_ansiGreen; colors_ansiYellow;
    colors_ansiBlue; colors_ansiMagenta; colors_ansiCyan; colors_ansiWhite;
    colors_ansiBrightBlack; colors_ansiBrightRed; colors_ansiBrightGreen;
    colors_ansiBrightYellow; colors_ansiBrightBlue; colors_ansiBrightMagenta;
    colors_ansiBrightCyan; colors_ansiBrightWhite ].

(** The extension [exportTheme] callers are offered per format
    ([getSupportedFormats]); [None] for a format the table lacks. *)
Definition format_extension (format : string) : option string :=
  if String.eqb format "termistyle" then Some "termistyle"
  else if String.eqb format "iterm2" then Some "itermcolors"
  else if String.eqb format "alacritty" then Some "yml"
  else if String.eqb format "windows-terminal" then Some "json"
  else if String.eqb format "hyper" then Some "js"
  else if String.eqb format "kitty" then Some "conf"
  else None.

(** Splits a string at the last occurrence of a character. *)
Fixpoint split_last (c : ascii) (s : string) : option (string * string) :=
  match s with
  | EmptyString => None
  | String a s' =>
      match split_last c s' with
      | Some (before, after) => Some (String a before, after)
      | None => if Ascii.eqb a c then Some (EmptyString, s') else None
      end
  end.

(** The last segment of a POSIX path that has no trailing separator. *)
Definition last_segment (path : string) : string :=
  match split_last "/" path with
  | Some (_, after) => after
  | None => path
  end.

(** Node's [path.extname]: from the last dot of the last segment, empty
    when there is none, when the segment starts with its only dot, or for
    the segment [..]. *)
Definition path_extname (path : string) : string :=
  let base := last_segment path in
  match split_last "." base with
  | None => ""
  | Some (before, after) =>
      if String.eqb before "" then ""
      else if String.eqb base ".." then ""
      else "." +:+ after
  end.

(** Node's [path.basename(path, ext)]. *)
Definition path_basename (path ext : string) : string :=
  let base := last_segment path in
  let n := String.length base - String.length ext in
  if negb (String.eqb base ext) && String.eqb (String.substring n (String.length ext) base) ext
  then String.substring 0 n base else base.

Definition ascii_toLowerCase (a : ascii) : ascii :=
  let n := nat_of_ascii a in
  if ((65 <=? n) && (n <=? 90))%nat then ascii_of_nat (n + 32) else a.

(** [toLowerCase] on the ASCII letters. *)
Fixpoint toLowerCase (s : string) : string :=
  match s with
  | EmptyString => EmptyString
  | String a s' => String (ascii_toLowerCase a) (toLowerCase s')
  end.

(** Property access [json.key]; [None] is [undefined]. Reading a
    property of [null] throws, which the callers' [try] turns into an
    error: that case is [inl]. *)
Definition json_get (key : string) (json : Json) : unit + option Json :=
  match json with
  | json_null => inl tt
  | json_object fields =>
      inr (snd <$> List.find (fun kv => String.eqb (fst kv) key) (rev fields))
  | _ => inr None
  end.

Definition json_truthy (v : option Json) : bool :=
  match v with
  | None | Some json_null => false
  | Some (json_bool b) => b
  | Some (json_number n) =>
      match n with S754_zero _ | S754_nan => false | _ => true end
  | Some (json_string s) => negb (String.eqb s "")
  | Some _ => true
  end.

(** [v || fallback]. *)
Definition json_or (v : option Json) (fallback : Json) : Json :=
  match v with
  | Some j => if json_truthy v then j else fallback
  | None => fallback
  end.

Section ExportManager.

(** The host's [JSON.parse]: a syntax error message or the document. *)
Variable JSON_parse : string -> string + Json.

(** [importFromTermiStyle]. *)
Definition importFromTermiStyle (content filePath : string)
  : string + ImportedTheme :=
  match JSON_parse content with
  | inr theme =>
      inr {| imported_source := filePath; imported_format := "termistyle";
             imported_theme := theme; imported_warnings := [] |}
  | inl error => inl ("Invalid TermiStyle theme file: " +:+ error)
  end.

(** [importFromWindowsTerminal]; [created] and [modified] are its two
    clock readings. *)
Definition importFromWindowsTerminal (created modified : string) (json : Json)
    (filePath : string) : ImportedTheme :=
  let get key := match json_get key json with inr v => v | inl _ => None end in
  let color key fallback := json_or (get key) (json_string fallback) in
  {| imported_source := filePath;
     imported_format := "windows-terminal";
     imported_theme := json_object [
       ("name", json_or (get "name") (json_string (path_basename filePath ".json")));
       ("version", json_string "1.0.0");
       ("created", json_string created);
       ("modified", json_string modified);
       ("colors", json_object [
          ("background", color "background" "#000000");
          ("foreground", color "foreground" "#ffffff");
          ("selection", color "selectionBackground" "#ffffff40");
          ("selectionBackground", color "selectionBackground" "#ffffff40");
          ("ansiBlack", color "black" "#000000");
          ("ansiRed", color "red" "#cd3131");
          ("ansiGreen", color "green" "#0dbc79");
          ("ansiYellow", color "yellow" "#e5e510");
          ("ansiBlue", color "blue" "#2472c8");
          ("ansiMagenta", color "purple" "#bc3fbc");
          ("ansiCyan", color "cyan" "#11a8cd");
          ("ansiWhite", color "white" "#e5e5e5");
          ("ansiBrightBlack", color "brightBlack" "#666666");
          ("ansiBrightRed", color "brightRed" "#f14c4c");
          ("ansiBrightGreen", color "brightGreen" "#23d18b");
          ("ansiBrightYellow", color "brightYellow" "#f5f543");
          ("ansiBrightBlue", color "brightBlue" "#3b8eea");
          ("ansiBrightMagenta", color "brightPurple" "#d670d6");
          ("ansiBrightCyan", color "brightCyan" "#29b8db");
          ("ansiBrightWhite", color "brightWhite" "#e5e5e5");
          ("border", json_string "#333333");
          ("tab", json_object [
             ("activeForeground", json_string "#ffffff");
             ("activeBackground", json_string "#333333");
             ("inactiveForeground", json_string "#cccccc");
             ("inactiveBackground", json_string "#2d2d30");
             ("border", json_string "#333333")
           ])
        ])
     ];
     imported_warnings := [] |}.

(** [importFromJSON]. *)
Definition importFromJSON (created modified : string) (content filePath : string)
  : string + ImportedTheme :=
  match JSON_parse content with
  | inl error => inl ("Invalid JSON file: " +:+ error)
  | inr json =>
      match json_get "name" json with
      | inl _ => inl "Invalid JSON file: TypeError: Cannot read properties of null"
      | inr name =>
          let get key := match json_get key json with inr v => v | inl _ => None end in
          (* Check if it's a Windows Terminal theme *)
          if json_truthy name && json_truthy (get "background")
             && json_truthy (get "foreground")
          then inr (importFromWindowsTerminal created modified json filePath)
          else
            inr {| imported_source := filePath;
                   imported_format := "json";
                   imported_theme := json_object [
                     ("name", json_or name (json_string (path_basename filePath ".json")));
                     ("version", json_string "1.0.0");
                     ("created", json_string created);
                     ("modified", json_string modified)
                   ];
                   imported_warnings :=
                     ["Generic JSON import - may require manual adjustment"] |}
      end
  end.

(** [importTheme] on the content read from [filePath]. *)
Definition importTheme (created modified : string) (content filePath : string)
  : string + ImportedTheme :=
  let extension := toLowerCase (path_extname filePath) in
  if String.eqb extension ".termistyle" || String.eqb extension ".code-terminal-theme"
  then importFromTermiStyle content filePath
  else if String.eqb extension ".json"
  then importFromJSON created modified content filePath
  else inl ("Unsupported file format: " +:+ extension).

End ExportManager.

(** ** AutoSwitcher *)

Inductive SwitchMode : Type := mode_time | mode_system.

Record AutoSwitchConfig : Type := {
  enabled : bool;
  mode : SwitchMode;
  lightTheme : string;
  darkTheme : string;
  lightHour : Js.number;
  darkHour : Js.number
}.

(** [currentHour >= lightHour && currentHour < darkHour]. *)
Definition shouldUseLightTheme (config : AutoSwitchConfig) (currentHour : Js.number)
  : bool :=
  Js.ge currentHour (lightHour config) && Js.lt currentHour (darkHour config).

(** The theme name [applyTimeBasedTheme] resolves. *)
Definition timeBasedThemeName (config : AutoSwitchConfig) (currentHour : Js.number)
  : string :=
  if shouldUseLightTheme config currentHour
  then lightTheme config else darkTheme config.

Section AutoSwitcher.

Variable getCurrentTheme :
  gmap string Setting -> string -> string -> TerminalTheme.

(** [applyThemeByName]: nothing happens for an empty or unknown name. *)
Definition applyThemeByName (themeName : string) (st : State) : State :=
  if String.eqb themeName "" then st
  else
    match List.find (fun t => String.eqb (theme_name t) themeName) (savedThemes st) with
    | Some theme => applyTheme getCurrentTheme theme st
    | None => st
    end.

(** [applyTimeBasedTheme] at the hour [now.getHours()] returns. *)
Definition applyTimeBasedTheme (config : AutoSwitchConfig)
    (currentHour : Js.number) (st : State) : State :=
  applyThemeByName (timeBasedThemeName config currentHour) st.

End AutoSwitcher.

(** ** Key tables of the apply engine *)






(** The test [getCurrentTheme] uses for an editor or workbench key
    ([hasEditorCustomizations]). *)
Definition isEditorOrWorkbenchKey (key : string) : bool :=
  String.prefix "editor." key
  || String.prefix "activityBar." key
  || String.prefix "sideBar." key
  || String.prefix "statusBar." key
  || String.prefix "titleBar." key
  || String.prefix "tab." key.

(** ** What [applyTheme] writes into the colour map *)

(** The colours of the editor branch: the full fan-out, the three-key
    fallback, or nothing. *)
Definition editorPart (theme : TerminalTheme) : gmap string Js.value :=
  match applyToEditor (theme_integration theme), theme_editorTheme theme with
  | true, Some et => editorColors et
  | true, None => basicEditorColors theme
  | false, _ => ∅
  end.

(** The colours of the workbench fallback. *)
Definition workbenchPart (theme : TerminalTheme) : gmap string Js.value :=
  match applyToWorkbench (theme_integration theme), theme_editorTheme theme with
  | true, None => basicWorkbenchColors theme
  | _, _ => ∅
  end.

(** All entries of the first write of the colour map, by precedence. *)
Definition mergedColors (theme : TerminalTheme) : gmap string Js.value :=
  terminalColors theme ∪ (workbenchPart theme ∪ editorPart theme).

(** Whether [applyCustomEffects] runs and rewrites the background. *)
Definition transparencyApplies (theme : TerminalTheme) : bool :=
  Js.truthy (customCss (theme_integration theme))
  && Js.gt (transparency (theme_effects theme)) (Js.of_Z 0).

(** All entries the colour map has been given when [applyTheme] ends. *)
Definition writtenColors (theme : TerminalTheme) : gmap string Js.value :=
  if transparencyApplies theme then
    <["terminal.background" :=
        Js.str (colors_background (theme_colors theme)
                +:+ alpha (transparency (theme_effects theme)))]>
      (mergedColors theme)
  else mergedColors theme.



(** The integers from [lo], [n] of them. *)
Definition Z_range (lo : Z) (n : nat) : list Z :=
  map (fun i => (lo + Z.of_nat i)%Z) (seq 0 n).

(** The colour map of a state after [applyTheme]. *)
Definition newMap (getCurrentTheme : gmap string Setting -> string -> string -> TerminalTheme)
    (theme : TerminalTheme) (st : State) : gmap string Js.value :=
  get_colorCustomizations (applyTheme getCurrentTheme theme st).

Definition set_integration (i : Integration) (t : TerminalTheme) : TerminalTheme :=
  {| theme_name := theme_name t; theme_version := theme_version t;
     theme_author := theme_author t; theme_description := theme_description t;
     theme_created := theme_created t; theme_modified := theme_modified t;
     theme_font := theme_font t; theme_cursor := theme_cursor t;
     theme_colors := theme_colors t; theme_editorTheme := theme_editorTheme t;
     theme_integration := i; theme_effects := theme_effects t |}.



(** The [config.update] calls of one [applyTheme], in order, for a
    document and the colour map found in the store. *)
Definition applyTheme_updates (theme : TerminalTheme)
    (colorCustomizations : gmap string Js.value) : list (string * Setting) :=
  [ ("workbench.colorTheme", setting_undefined);
    ("terminal.integrated.fontFamily",
     setting_string (font_family (theme_font theme)));
    ("terminal.integrated.fontSize",
     setting_number (font_size (theme_font theme)));
    ("terminal.integrated.fontWeight",
     setting_string (FontWeight_string (font_weight (theme_font theme))));
    ("terminal.integrated.lineHeight",
     setting_number (font_lineHeight (theme_font theme)));
    ("terminal.integrated.cursorStyle",
     setting_string (CursorStyle_string (cursor_style (theme_cursor theme))));
    ("terminal.integrated.cursorBlinking",
     setting_bool (cursor_blinking (theme_cursor theme))) ]
  ++ match applyToEditor (theme_integration theme), theme_editorTheme theme with
     | true, Some et =>
         [("editor.tokenColorCustomizations",
           setting_tokens (tokenColorCustomizations et))]
     | _, _ => []
     end
  ++ [ ("workbench.colorCustomizations",
        setting_colors (mergedColors theme ∪ colorCustomizations)) ]
  ++ (if font_ligatures (theme_font theme)
      then [("editor.fontLigatures", setting_bool true)] else [])
  ++ (if transparencyApplies theme
      then [("workbench.colorCustomizations",
             setting_colors (writtenColors theme ∪ colorCustomizations))]
      else []).

(** The number of saved documents of a given name. *)
Definition count_named (name : string) (themes : list TerminalTheme) : nat :=
  length (filter (fun t => theme_name t = name) themes).

(** A sequence of [config.update] calls carried out on a state. *)
Definition run (us : list (string * Setting)) (st : State) : State :=
  fold_left (fun s update => config_update update.1 update.2 s) us st.

(** The first step of [applyTheme]: the backup, when enabled. *)
Definition backup_step
    (getCurrentTheme : gmap string Setting -> string -> string -> TerminalTheme)
    (st : State) : State :=
  if get_bool_default_true "vibestudio.backup.enabled" st
  then createBackup getCurrentTheme st else st.

(** The calls that follow the font and cursor settings. *)
Definition laterUpdates (theme : TerminalTheme)
    (colorCustomizations : gmap string Js.value) : list (string * Setting) :=
  drop 7 (applyTheme_updates theme colorCustomizations).



(** The comparisons of the time rule on two integer hours. *)
Definition hour_check (a b : Z) : bool :=
  Bool.eqb (Js.ge (Js.of_Z a) (Js.of_Z b)) (b <=? a)%Z
  && Bool.eqb (Js.lt (Js.of_Z a) (Js.of_Z b)) (a <? b)%Z.

(** ** Sample data: the bundled Neon Glow theme and the default editor colours *)

Module Sample.

Definition neonGlow : TerminalTheme :=
  {| theme_name := "Neon Glow";
     theme_version := "1.0.0";
     theme_author := Some "TermiStyle";
     theme_description :=
       Some "A futuristic cyberpunk theme with neon green glow effects";
     theme_created := "2024-11-15T10:30:00.000Z";
     theme_modified := "2024-11-15T10:30:00.000Z";
     theme_font :=
       {| font_family := "Fira Code, JetBrains Mono, monospace";
          font_size := Js.of_Z 14;
          font_weight := weight_normal;
          font_ligatures := true;
          font_lineHeight := Js.div (Js.of_Z 6) (Js.of_Z 5) |};
     theme_cursor :=
       {| cursor_style := style_block; cursor_blinking := true;
          cursor_color := "#00ff41" |};
     theme_colors :=
       {| colors_background := "#0a0a0a";
          colors_foreground := "#00ff41";
          colors_selection := "#00ff4140";
          colors_selectionBackground := "#00ff4140";
          colors_ansiBlack := "#000000";
          colors_ansiRed := "#ff0040";
          colors_ansiGreen := "#00ff41";
          colors_ansiYellow := "#ffff00";
          colors_ansiBlue := "#0080ff";
          colors_ansiMagenta := "#ff00ff";
          colors_ansiCyan := "#00ffff";
          colors_ansiWhite := "#ffffff";
          colors_ansiBrightBlack := "#404040";
          colors_ansiBrightRed := "#ff4080";
          colors_ansiBrightGreen := "#40ff80";
          colors_ansiBrightYellow := "#ffff40";
          colors_ansiBrightBlue := "#4080ff";
          colors_ansiBrightMagenta := "#ff40ff";
          colors_ansiBrightCyan := "#40ffff";
          colors_ansiBrightWhite := "#ffffff";
          colors_border := "#00ff41";
          colors_tab :=
            {| colors_tab_activeForeground := "#00ff41";
               colors_tab_activeBackground := "#0a0a0a";
               colors_tab_inactiveForeground := "#40ff80";
               colors_tab_inactiveBackground := "#000000";
               colors_tab_border := "#00ff41" |} |};
     theme_editorTheme := None;
     theme_integration :=
       {| applyToEditor := false; applyToTerminal := true;
          applyToWorkbench := false;
          customCss := Some ".terminal { text-shadow: 0 0 10px #00ff41; }" |};
     theme_effects :=
       {| transparency := Js.of_Z 10; blur := Js.of_Z 0; animations := true;
          particleEffects := false; glowEffect := true; scanlines := false;
          crtEffect := false |} |}.


Definition set_editorTheme (et : option EditorTheme) (t : TerminalTheme)
  : TerminalTheme :=
  {| theme_name := theme_name t; theme_version := theme_version t;
     theme_author := theme_author t; theme_description := theme_description t;
     theme_created := theme_created t; theme_modified := theme_modified t;
     theme_font := theme_font t; theme_cursor := theme_cursor t;
     theme_colors := theme_colors t; theme_editorTheme := et;
     theme_integration := theme_integration t; theme_effects := theme_effects t |}.


Definition set_flags (editor terminal workbench : bool) (css : option string)
    (t : TerminalTheme) : TerminalTheme :=
  set_integration
    {| applyToEditor := editor; applyToTerminal := terminal;
       applyToWorkbench := workbench; customCss := css |} t.


(** The per-field defaults of [getCurrentTheme]. *)
Definition default_editor :=
  {| editor_background := "#1e1e1e";
     editor_foreground := "#d4d4d4";
     editor_selectionBackground := "#264f78";
     editor_selectionForeground := Some "#ffffff";
     editor_lineHighlightBackground := "#2a2d2e";
     editor_cursorColor := "#ffffff";
     editor_indentGuideBackground := "#404040";
     editor_indentGuideActiveBackground := "#707070" |}.
Definition default_activityBar :=
  {| activityBar_background := "#333333";
     activityBar_foreground := "#ffffff";
     activityBar_inactiveForeground := "#ffffff66";
     activityBar_border := "#333333";
     activityBar_activeBorder := "#007acc";
     activityBar_activeBackground := "#333333" |}.
Definition default_sideBar :=
  {| sideBar_background := "#252526";
     sideBar_foreground := "#cccccc";
     sideBar_border := "#2d2d30" |}.
Definition default_statusBar :=
  {| statusBar_background := "#007acc";
     statusBar_foreground := "#ffffff";
     statusBar_border := "#007acc";
     statusBar_debuggingBackground := "#cc6633";
     statusBar_debuggingForeground := "#ffffff";
     statusBar_noFolderBackground := "#68217a";
     statusBar_noFolderForeground := "#ffffff" |}.
Definition default_titleBar :=
  {| titleBar_activeBackground := "#3c3c3c";
     titleBar_activeForeground := "#cccccc";
     titleBar_inactiveBackground := "#3c3c3c";
     titleBar_inactiveForeground := "#999999";
     titleBar_border := "#333333" |}.
Definition default_panel :=
  {| panel_background := "#1e1e1e";
     panel_border := "#333333";
     panel_dropBorder := "#007acc" |}.
Definition default_tab :=
  {| tab_activeBackground := "#1e1e1e";
     tab_activeForeground := "#ffffff";
     tab_activeBorder := "#007acc";
     tab_activeBorderTop := "#007acc";
     tab_inactiveBackground := "#2d2d30";
     tab_inactiveForeground := "#ffffff80";
     tab_inactiveModifiedBorder := "#3399cc";
     tab_unfocusedActiveBackground := "#1e1e1e";
     tab_unfocusedActiveForeground := "#ffffff80";
     tab_unfocusedInactiveBackground := "#2d2d30";
     tab_unfocusedInactiveForeground := "#ffffff40";
     tab_border := "#333333" |}.
Definition default_input :=
  {| input_background := "#3c3c3c";
     input_foreground := "#cccccc";
     input_border := "#3c3c3c";
     input_placeholderForeground := "#a6a6a6" |}.
Definition default_button :=
  {| button_background := "#0e639c";
     button_foreground := "#ffffff";
     button_hoverBackground := "#1177bb";
     button_secondaryBackground := "#5f6a79";
     button_secondaryForeground := "#ffffff";
     button_secondaryHoverBackground := "#4c5561" |}.
Definition default_checkbox :=
  {| checkbox_background := "#3c3c3c";
     checkbox_foreground := "#ffffff";
     checkbox_border := "#3c3c3c" |}.
Definition default_badge :=
  {| badge_background := "#007acc";
     badge_foreground := "#ffffff" |}.
Definition default_progressBar :=
  {| progressBar_background := "#007acc" |}.
Definition default_dropdown :=
  {| dropdown_background := "#3c3c3c";
     dropdown_foreground := "#cccccc";
     dropdown_border := "#3c3c3c" |}.
Definition default_list :=
  {| list_activeSelectionBackground := "#094771";
     list_activeSelectionForeground := "#ffffff";
     list_inactiveSelectionBackground := "#37373d";
     list_inactiveSelectionForeground := "#cccccc";
     list_hoverBackground := "#2a2d2e";
     list_hoverForeground := "#cccccc";
     list_focusBackground := "#062f4a";
     list_focusForeground := "#cccccc" |}.
Definition default_scrollbar :=
  {| scrollbar_shadow := "#000000" |}.
Definition default_syntax :=
  {| syntax_comment := "#6a9955";
     syntax_keyword := "#569cd6";
     syntax_string := "#ce9178";
     syntax_number := "#b5cea8";
     syntax_function := "#dcdcaa";
     syntax_variable := "#9cdcfe";
     syntax_type := "#4ec9b0";
     syntax_class := "#4ec9b0";
     syntax_interface := "#b8d7a3";
     syntax_namespace := "#4ec9b0";
     syntax_operator := "#d4d4d4";
     syntax_punctuation := "#d4d4d4";
     syntax_constant := "#4fc1ff";
     syntax_property := "#9cdcfe";
     syntax_tag := "#569cd6";
     syntax_attribute := "#92c5f8" |}.

Definition defaultEditorTheme : EditorTheme :=
  {| et_editor := default_editor;
     et_activityBar := default_activityBar;
     et_sideBar := default_sideBar;
     et_sideBarSectionHeader := None;
     et_panelTitle := None;
     et_statusBar := default_statusBar;
     et_titleBar := default_titleBar;
     et_panel := default_panel;
     et_tab := default_tab;
     et_input := default_input;
     et_dropdown := default_dropdown;
     et_button := default_button;
     et_checkbox := default_checkbox;
     et_badge := default_badge;
     et_progressBar := default_progressBar;
     et_list := default_list;
     et_scrollbar := default_scrollbar;
     et_syntax := default_syntax |}.

(** Neon Glow with the editor and workbench integrations switched on. *)
Definition neonGlow_editor : TerminalTheme :=
  set_editorTheme (Some defaultEditorTheme)
    (set_flags true true true (customCss (theme_integration neonGlow)) neonGlow).

(** A second document of the same name with other content. *)
Definition neonGlow_v2 : TerminalTheme :=
  {| theme_name := "Neon Glow";
     theme_version := "2.0.0";
     theme_author := theme_author neonGlow;
     theme_description := Some "Second edition";
     theme_created := "2025-01-01T00:00:00.000Z";
     theme_modified := "2025-01-01T00:00:00.000Z";
     theme_font := theme_font neonGlow;
     theme_cursor := theme_cursor neonGlow;
     theme_colors := theme_colors neonGlow;
     theme_editorTheme := None;
     theme_integration := theme_integration neonGlow;
     theme_effects := theme_effects neonGlow |}.

(** A stand-in for [getCurrentTheme]. *)
Definition readBack (_ : gmap string Setting) (created modified : string)
  : TerminalTheme :=
  set_modified modified (set_created created neonGlow).

(** A clock whose [n]-th reading is ["T<n>"]. *)
Definition ticks (n : nat) : string :=
  "T" +:+ NilZero.string_of_uint (Nat.to_uint n).

(** A fresh installation: nothing configured, nothing saved. *)
Definition fresh : State :=
  {| configuration := ∅; updates := []; savedThemes := [];
     currentTheme := None; storedBackups := []; backups := [];
     clock := ticks; clock_reads := 0 |}.

(** A configuration that already customises two colours. *)
Definition customised : State :=
  config_update "workbench.colorCustomizations"
    (setting_colors
       (Js.object [("terminal.background", Js.str "#ffffff");
                   ("foo.background", Js.str "#123456")]))
    fresh.

(** Neon Glow saved in the theme store. *)
Definition installed : State :=
  with_savedThemes [neonGlow] fresh.

(** A time schedule: a light theme that is not installed from 6 to 18,
    Neon Glow otherwise. *)
Definition schedule : AutoSwitchConfig :=
  {| enabled := true; mode := mode_time;
     lightTheme := "Solar Day"; darkTheme := "Neon Glow";
     lightHour := Js.of_Z 6; darkHour := Js.of_Z 18 |}.


(** A parser that rejects every text; it stands for [JSON.parse] where
    the text is not JSON. *)
Definition rejecting_parse (_ : string) : string + Json :=
  inl "SyntaxError: Unexpected token".

End Sample.


(** ** ThemeManager: deleting, resetting, restoring *)

(** [deleteTheme]: keeps the documents of every other name. *)
Definition deleteTheme (themeName : string) (st : State) : State :=
  with_savedThemes
    (filter (fun t => theme_name t <> themeName) (savedThemes st)) st.


(** The loop of [restoreBackup]: one [config.update] per entry of the
    snapshot. The entries are visited in the key order of the map; the
    keys being distinct, the store reached does not depend on it. *)
Definition restoreSettings (settings : gmap string Setting) (st : State) : State :=
  map_fold (fun key value st => config_update key value st) st settings.

(** [restoreBackup]: the first snapshot with the timestamp, or the error
    "Backup not found". *)
Definition restoreBackup (timestamp : string) (st : State) : string + State :=
  match List.find (fun b => String.eqb (backup_timestamp b) timestamp) (backups st) with
  | None => inl "Backup not found"
  | Some backup => inr (restoreSettings (backup_settings backup) st)
  end.

(** The empty object [{}] as a setting. *)
Definition empty_object : Setting := setting_colors ∅.

Section Reset.

Variable getCurrentTheme :
  gmap string Setting -> string -> string -> TerminalTheme.


(** [resetToDefaultColors], with the notification it shows. *)
Definition resetToDefaultColors (st : State) : State * string :=
  (* Create backup before reset *)
  let st := createBackup getCurrentTheme st in
  (* Only remove the color customizations, don't touch other settings *)
  let st := config_update "workbench.colorTheme" setting_undefined st in
  let st := config_update "workbench.colorCustomizations" empty_object st in
  let st := config_update "editor.tokenColorCustomizations" empty_object st in
  (* Reset font size to default *)
  let st := config_update "terminal.integrated.fontSize" (setting_number (Js.of_Z 14)) st in
  (st, "✅ Color customizations reset to default").

End Reset.

(** ** AutoSwitcher: the decision from the base theme, theme availability *)

(** [haystack.includes(needle)]. *)
Definition includes (needle haystack : string) : bool :=
  match String.index 0 needle haystack with
  | Some _ => true
  | None => false
  end.

(** [config.get(key, fallback)] where the code goes on to use the value
    as a string; [None] when the store holds a value of another type. *)
Definition get_string (key fallback : string) (st : State) : option string :=
  match configuration st !! key with
  | None | Some setting_undefined => Some fallback
  | Some (setting_string s) => Some s
  | Some _ => None
  end.

(** The heuristic of [applySystemTheme] on the name of the base theme. *)
Definition isLightTheme (currentTheme : string) : bool :=
  includes "light" (toLowerCase currentTheme)
  || includes "day" (toLowerCase currentTheme).

Section SystemSwitch.

Variable getCurrentTheme :
  gmap string Setting -> string -> string -> TerminalTheme.

(** [applySystemTheme]. Where [workbench.colorTheme] holds something that
    is not a string, [toLowerCase] throws and nothing is applied. *)
Definition applySystemTheme (config : AutoSwitchConfig) (st : State) : State :=
  match get_string "workbench.colorTheme" "" st with
  | Some currentTheme =>
      let themeName :=
        if isLightTheme currentTheme then lightTheme config else darkTheme config in
      applyThemeByName getCurrentTheme themeName st
  | None => st
  end.

End SystemSwitch.

(** [checkThemeAvailability]: both configured names are set and saved. *)
Definition checkThemeAvailability (st : State) : bool :=
  match get_string "termistyle.autoSwitch.lightTheme" "" st,
        get_string "termistyle.autoSwitch.darkTheme" "" st with
  | Some light, Some dark =>
      if String.eqb light "" || String.eqb dark "" then false
      else
        let themes := savedThemes st in
        existsb (fun t => String.eqb (theme_name t) light) themes
        && existsb (fun t => String.eqb (theme_name t) dark) themes
  | _, _ => false
  end.

(** ** AutoSwitcher: timer and subscription *)

(** The asynchronous calls the switcher starts without awaiting them. *)
Inductive SwitcherTask : Type :=
| task_applyTimeBasedTheme
| task_applySystemTheme
| task_saveEnabled (value : bool).

(** The [AutoSwitcher] object with the part of the host it acts on: the
    intervals set and not yet cleared, the configuration listeners not
    yet disposed, the next handle the host hands out, and the calls
    started so far (oldest first). *)
Record Switcher : Type := {
  switcher_config : AutoSwitchConfig;
  switcher_timer : option nat;
  switcher_systemThemeWatcher : option nat;
  intervals : gset nat;
  listeners : gset nat;
  next_handle : nat;
  started : list SwitcherTask
}.

(** The object after its constructor. *)
Definition new_switcher (config : AutoSwitchConfig) : Switcher :=
  {| switcher_config := config; switcher_timer := None;
     switcher_systemThemeWatcher := None; intervals := ∅; listeners := ∅;
     next_handle := 0; started := [] |}.

Definition set_enabled (value : bool) (config : AutoSwitchConfig)
  : AutoSwitchConfig :=
  {| enabled := value; mode := mode config; lightTheme := lightTheme config;
     darkTheme := darkTheme config; lightHour := lightHour config;
     darkHour := darkHour config |}.

Definition start_task (task : SwitcherTask) (sw : Switcher) : Switcher :=
  {| switcher_config := switcher_config sw; switcher_timer := switcher_timer sw;
     switcher_systemThemeWatcher := switcher_systemThemeWatcher sw;
     intervals := intervals sw; listeners := listeners sw;
     next_handle := next_handle sw; started := started sw ++ [task] |}.

(** [this.config.enabled = value; this.saveConfig()]. *)
Definition save_enabled (value : bool) (sw : Switcher) : Switcher :=
  {| switcher_config := set_enabled value (switcher_config sw);
     switcher_timer := switcher_timer sw;
     switcher_systemThemeWatcher := switcher_systemThemeWatcher sw;
     intervals := intervals sw; listeners := listeners sw;
     next_handle := next_handle sw;
     started := started sw ++ [task_saveEnabled value] |}.

(** [stopTimeBasedSwitching]. *)
Definition stopTimeBasedSwitching (sw : Switcher) : Switcher :=
  match switcher_timer sw with
  | Some handle =>
      {| switcher_config := switcher_config sw; switcher_timer := None;
         switcher_systemThemeWatcher := switcher_systemThemeWatcher sw;
         intervals := intervals sw ∖ {[handle]}; listeners := listeners sw;
         next_handle := next_handle sw; started := started sw |}
  | None => sw
  end.

(** [startTimeBasedSwitching]. *)
Definition startTimeBasedSwitching (sw : Switcher) : Switcher :=
  let sw := stopTimeBasedSwitching sw in
  (* Check immediately *)
  let sw := start_task task_applyTimeBasedTheme sw in
  (* Check every minute *)
  {| switcher_config := switcher_config sw;
     switcher_timer := Some (next_handle sw);
     switcher_systemThemeWatcher := switcher_systemThemeWatcher sw;
     intervals := intervals sw ∪ {[next_handle sw]}; listeners := listeners sw;
     next_handle := S (next_handle sw); started := started sw |}.

(** [stopSystemBasedSwitching]. *)
Definition stopSystemBasedSwitching (sw : Switcher) : Switcher :=
  match switcher_systemThemeWatcher sw with
  | Some handle =>
      {| switcher_config := switcher_config sw; switcher_timer := switcher_timer sw;
         switcher_systemThemeWatcher := None;
         intervals := intervals sw; listeners := listeners sw ∖ {[handle]};
         next_handle := next_handle sw; started := started sw |}
  | None => sw
  end.

(** [startSystemBasedSwitching]. *)
Definition startSystemBasedSwitching (sw : Switcher) : Switcher :=
  let sw := stopSystemBasedSwitching sw in
  (* Apply immediately *)
  let sw := start_task task_applySystemTheme sw in
  {| switcher_config := switcher_config sw; switcher_timer := switcher_timer sw;
     switcher_systemThemeWatcher := Some (next_handle sw);
     intervals := intervals sw; listeners := listeners sw ∪ {[next_handle sw]};
     next_handle := S (next_handle sw); started := started sw |}.

(** [enable]. *)
Definition enable (sw : Switcher) : Switcher :=
  let sw :=
    match mode (switcher_config sw) with
    | mode_time => startTimeBasedSwitching sw
    | mode_system => startSystemBasedSwitching sw
    end in
  save_enabled true sw.

(** [disable]. *)
Definition disable (sw : Switcher) : Switcher :=
  let sw := stopTimeBasedSwitching sw in
  let sw := stopSystemBasedSwitching sw in
  save_enabled false sw.

(** [isEnabled]. *)
Definition isEnabled (sw : Switcher) : bool := enabled (switcher_config sw).

(** [initialize]. *)
Definition initialize (sw : Switcher) : Switcher :=
  if enabled (switcher_config sw) then enable sw else sw.

(** [onConfigurationChanged]; [loaded] is what [loadConfig] returns. *)
Definition onConfigurationChanged (loaded : AutoSwitchConfig) (sw : Switcher)
  : Switcher :=
  let sw :=
    {| switcher_config := loaded; switcher_timer := switcher_timer sw;
       switcher_systemThemeWatcher := switcher_systemThemeWatcher sw;
       intervals := intervals sw; listeners := listeners sw;
       next_handle := next_handle sw; started := started sw |} in
  if enabled loaded then enable (disable sw) else sw.

(** [checkSystemTheme]. *)
Definition checkSystemTheme (sw : Switcher) : Switcher :=
  match enabled (switcher_config sw), mode (switcher_config sw) with
  | true, mode_system => start_task task_applySystemTheme sw
  | _, _ => sw
  end.

(** [dispose]. *)
Definition dispose (sw : Switcher) : Switcher := disable sw.

(** What reaches the host: an interval fires, the base theme setting
    changes. A cleared interval or a disposed listener starts nothing. *)
Definition interval_fires (handle : nat) (sw : Switcher) : Switcher :=
  if decide (handle ∈ intervals sw)
  then start_task task_applyTimeBasedTheme sw else sw.

Definition colorTheme_changes (sw : Switcher) : Switcher :=
  if decide (listeners sw = ∅) then sw
  else start_task task_applySystemTheme sw.

(** The calls made on the switcher and the events of the host. *)
Inductive SwitcherStep : Type :=
| step_initialize
| step_enable
| step_disable
| step_onConfigurationChanged (loaded : AutoSwitchConfig)
| step_checkSystemTheme
| step_interval_fires (handle : nat)
| step_colorTheme_changes.

Definition switcher_step (sw : Switcher) (step : SwitcherStep) : Switcher :=
  match step with
  | step_initialize => initialize sw
  | step_enable => enable sw
  | step_disable => disable sw
  | step_onConfigurationChanged loaded => onConfigurationChanged loaded sw
  | step_checkSystemTheme => checkSystemTheme sw
  | step_interval_fires handle => interval_fires handle sw
  | step_colorTheme_changes => colorTheme_changes sw
  end.

(** The handles an optional field holds. *)
Definition held (field : option nat) : gset nat :=
  match field with
  | Some handle => {[handle]}
  | None => ∅
  end.

(** The host holds exactly the interval and the listener the object
    refers to. *)
Definition no_dangling (sw : Switcher) : Prop :=
  intervals sw = held (switcher_timer sw)
  /\ listeners sw = held (switcher_systemThemeWatcher sw).

(** Sample switchers. *)
Module SampleSwitcher.

(** The time schedule, started at activation: the interval has handle 0. *)
Definition running : Switcher := initialize (new_switcher Sample.schedule).

(** The same schedule with the switch turned off in the settings. *)
Definition switched_off : AutoSwitchConfig := set_enabled false Sample.schedule.

(** A schedule that follows the base theme. *)
Definition system_schedule : AutoSwitchConfig :=
  {| enabled := true; mode := mode_system;
     lightTheme := "Solar Day"; darkTheme := "Neon Glow";
     lightHour := Js.of_Z 6; darkHour := Js.of_Z 18 |}.

(** Started in system mode, then the settings are changed to the time
    mode with the switch off: the listener of handle 0 is still there. *)
Definition retimed : Switcher :=
  onConfigurationChanged switched_off (initialize (new_switcher system_schedule)).

End SampleSwitcher.

(** Sample data for the system switch: Neon Glow saved next to a copy of
    it named Solar Day, under a light base theme. *)
Module SampleSystem.

Definition solarDay : TerminalTheme :=
  {| theme_name := "Solar Day";
     theme_version := theme_version Sample.neonGlow;
     theme_author := theme_author Sample.neonGlow;
     theme_description := theme_description Sample.neonGlow;
     theme_created := theme_created Sample.neonGlow;
     theme_modified := theme_modified Sample.neonGlow;
     theme_font := theme_font Sample.neonGlow;
     theme_cursor := theme_cursor Sample.neonGlow;
     theme_colors := theme_colors Sample.neonGlow;
     theme_editorTheme := None;
     theme_integration := theme_integration Sample.neonGlow;
     theme_effects := theme_effects Sample.neonGlow |}.

Definition light_base : State :=
  config_update "workbench.colorTheme" (setting_string "Default Light+")
    (with_savedThemes [Sample.neonGlow; solarDay] Sample.fresh).

(** The two schedule names stored in the settings. *)
Definition configured : State :=
  config_update "termistyle.autoSwitch.darkTheme" (setting_string "Neon Glow")
    (config_update "termistyle.autoSwitch.lightTheme" (setting_string "Solar Day")
       light_base).

End SampleSystem.

(** ** ExportManager: the exporters and the file they write *)

(** The object literal [exportToWindowsTerminal] serialises. *)
Definition windowsTerminalScheme (theme : TerminalTheme) : Json :=
  let colors := theme_colors theme in
  json_object [
    ("name", json_string (theme_name theme));
    ("background", json_string (colors_background colors));
    ("foreground", json_string (colors_foreground colors));
    ("black", json_string (colors_ansiBlack colors));
    ("red", json_string (colors_ansiRed colors));
    ("green", json_string (colors_ansiGreen colors));
    ("yellow", json_string (colors_ansiYellow colors));
    ("blue", json_string (colors_ansiBlue colors));
    ("purple", json_string (colors_ansiMagenta colors));
    ("cyan", json_string (colors_ansiCyan colors));
    ("white", json_string (colors_ansiWhite colors));
    ("brightBlack", json_string (colors_ansiBrightBlack colors));
    ("brightRed", json_string (colors_ansiBrightRed colors));
    ("brightGreen", json_string (colors_ansiBrightGreen colors));
    ("brightYellow", json_string (colors_ansiBrightYellow colors));
    ("brightBlue", json_string (colors_ansiBrightBlue colors));
    ("brightPurple", json_string (colors_ansiBrightMagenta colors));
    ("brightCyan", json_string (colors_ansiBrightCyan colors));
    ("brightWhite", json_string (colors_ansiBrightWhite colors))
  ].

Section Exporters.

(** The host's [JSON.stringify(value, null, 2)], on a JSON value and on a
    theme document. *)
Variable JSON_stringify : Json -> string.
Variable JSON_stringify_theme : TerminalTheme -> string.

(** [exportToTermiStyle]. *)
Definition exportToTermiStyle (theme : TerminalTheme) : string :=
  JSON_stringify_theme theme.

(** [exportToWindowsTerminal]. *)
Definition exportToWindowsTerminal (theme : TerminalTheme) : string :=
  JSON_stringify (windowsTerminalScheme theme).

(** [exportTheme]; [files] maps a path to the text of the file there. *)
Definition exportTheme (theme : TerminalTheme) (format filePath : string)
    (files : gmap string string) : string + gmap string string :=
  let content :=
    if String.eqb format "termistyle" then Some (exportToTermiStyle theme)
    else if String.eqb format "alacritty" then Some (exportToAlacritty theme)
    else if String.eqb format "windows-terminal"
    then Some (exportToWindowsTerminal theme)
    else None in
  match content with
  | Some content => inr (<[filePath := content]> files)
  | None => inl ("Unsupported export format: " +:+ format)
  end.

End Exporters.

(** The value under [colors.key] of an imported document. *)
Definition imported_colour (key : string) (imported : ImportedTheme)
  : option Json :=
  match json_get "colors" (imported_theme imported) with
  | inr (Some colors) =>
      match json_get key colors with
      | inr v => v
      | inl _ => None
      end
  | _ => None
  end.

(** The colours both Windows Terminal functions handle: the key of the
    scheme, the key of the theme document, the field read at export and
    the fallback of the import. *)
Definition windowsTerminalColours
  : list (string * string * (Colors -> string) * string) :=
  [ ("background", "background", colors_background, "#000000");
    ("foreground", "foreground", colors_foreground, "#ffffff");
    ("black", "ansiBlack", colors_ansiBlack, "#000000");
    ("red", "ansiRed", colors_ansiRed, "#cd3131");
    ("green", "ansiGreen", colors_ansiGreen, "#0dbc79");
    ("yellow", "ansiYellow", colors_ansiYellow, "#e5e510");
    ("blue", "ansiBlue", colors_ansiBlue, "#2472c8");
    ("purple", "ansiMagenta", colors_ansiMagenta, "#bc3fbc");
    ("cyan", "ansiCyan", colors_ansiCyan, "#11a8cd");
    ("white", "ansiWhite", colors_ansiWhite, "#e5e5e5");
    ("brightBlack", "ansiBrightBlack", colors_ansiBrightBlack, "#666666");
    ("brightRed", "ansiBrightRed", colors_ansiBrightRed, "#f14c4c");
    ("brightGreen", "ansiBrightGreen", colors_ansiBrightGreen, "#23d18b");
    ("brightYellow", "ansiBrightYellow", colors_ansiBrightYellow, "#f5f543");
    ("brightBlue", "ansiBrightBlue", colors_ansiBrightBlue, "#3b8eea");
    ("brightPurple", "ansiBrightMagenta", colors_ansiBrightMagenta, "#d670d6");
    ("brightCyan", "ansiBrightCyan", colors_ansiBrightCyan, "#29b8db");
    ("brightWhite", "ansiBrightWhite", colors_ansiBrightWhite, "#e5e5e5") ].

(** ** ThemeCustomizer: the messages of the web view *)

Inductive MessageType : Type :=
| type_themeUpdate
| type_applyTheme
| type_saveTheme
| type_loadTheme
| type_exportTheme
| type_importTheme
| type_resetTheme
| type_getPresets
| type_getSystemFonts
| type_previewToggle.

(** A message of the web view. [data] is [Some] for a theme document and
    [None] where the message carries none (the code tests [message.data]
    for truth and then casts it). *)
Record WebviewMessage : Type := {
  message_type : MessageType;
  message_data : option TerminalTheme
}.

(** What the panel shows or sends, oldest first. *)
Inductive PanelOutput : Type :=
| showInformationMessage (text : string)
| showErrorMessage (text : string)
| send_themeUpdate (data : TerminalTheme)
| send_presets
| send_systemFonts.

Record Customizer : Type := {
  customizer_currentTheme : option TerminalTheme;
  outputs : list PanelOutput
}.

Definition set_customizer_currentTheme (theme : TerminalTheme) (c : Customizer)
  : Customizer :=
  {| customizer_currentTheme := Some theme; outputs := outputs c |}.

Definition output (o : PanelOutput) (c : Customizer) : Customizer :=
  {| customizer_currentTheme := customizer_currentTheme c;
     outputs := outputs c ++ [o] |}.

Section ThemeCustomizer.

Variable getCurrentTheme :
  gmap string Setting -> string -> string -> TerminalTheme.

(** [await this.themeManager.getCurrentTheme()] with its two clock
    readings. *)
Definition read_currentTheme (st : State) : TerminalTheme * State :=
  let '(created, st) := Date_now st in
  let '(modified, st) := Date_now st in
  (getCurrentTheme (configuration st) created modified, st).

(** [handleMessage]. *)
Definition handleMessage (message : WebviewMessage) (c : Customizer) (st : State)
  : Customizer * State :=
  match message_type message with
  | type_themeUpdate =>
      match message_data message with
      | Some theme =>
          (* Only update the preview, don't apply to terminal *)
          (set_customizer_currentTheme theme c, st)
      | None => (c, st)
      end
  | type_applyTheme =>
      match message_data message with
      | Some theme =>
          let c := set_customizer_currentTheme theme c in
          let st := applyTheme getCurrentTheme theme st in
          (output (showInformationMessage "Theme applied successfully!") c, st)
      | None =>
          match customizer_currentTheme c with
          | Some theme =>
              (* Fallback to existing theme if no data provided *)
              let st := applyTheme getCurrentTheme theme st in
              (output (showInformationMessage "Theme applied successfully!") c, st)
          | None =>
              (output (showErrorMessage "No theme data available to apply.") c, st)
          end
      end
  | type_getPresets => (output send_presets c, st)
  | type_getSystemFonts => (output send_systemFonts c, st)
  | type_resetTheme =>
      (* Reset to default by removing color customizations *)
      let '(st, text) := resetToDefaultColors getCurrentTheme st in
      let c := output (showInformationMessage text) c in
      (* Refresh the current theme in the UI to reflect the reset *)
      let '(theme, st) := read_currentTheme st in
      let c := set_customizer_currentTheme theme c in
      (output (send_themeUpdate theme) c, st)
  | _ => (c, st)
  end.

End ThemeCustomizer.

(** Sample data for the codec: a printer and a parser that agree on the
    Windows Terminal scheme of Neon Glow. *)
Module SampleCodec.

Definition print_scheme (json : Json) : string := "{ scheme of Neon Glow }".

Definition parse_scheme (text : string) : string + Json :=
  if String.eqb text "{ scheme of Neon Glow }"
  then inr (windowsTerminalScheme Sample.neonGlow)
  else inl "SyntaxError: Unexpected token".

Definition print_theme (theme : TerminalTheme) : string := "{ Neon Glow }".



End SampleCodec.


(** ** ThemeManager: reading the settings back ([getCurrentTheme]) *)

(** The literal [1.2]: the double nearest to 12/10. *)
Definition lit_1_2 : Js.number := S754_finite false 5404319552844595 (-52).

Definition FontWeight_of_string (s : string) : option FontWeight :=
  List.find (fun w => String.eqb (FontWeight_string w) s)
    [weight_normal; weight_bold; weight_100; weight_200; weight_300;
     weight_400; weight_500; weight_600; weight_700; weight_800; weight_900].

Definition CursorStyle_of_string (s : string) : option CursorStyle :=
  List.find (fun c => String.eqb (CursorStyle_string c) s)
    [style_block; style_line; style_underline].

(** The settings are read back into the typed theme document. The code
    casts what it reads; a reader below answers [None] where the stored
    value does not have the type of the field it is read into. *)
Module Current.

(** What [config.get(key, fallback)] finds before the [fallback] applies:
    the value stored under the key, else the default the host has
    registered for it. [registered] holds these defaults. *)
Definition effective (registered configuration : gmap string Setting)
    (key : string) : option Setting :=
  match configuration !! key with
  | None | Some setting_undefined =>
      match registered !! key with
      | Some setting_undefined => None
      | found => found
      end
  | Some v => Some v
  end.

(** [config.get(key, fallback)] read into a string, a number, a boolean. *)
Definition read_string (registered configuration : gmap string Setting)
    (key fallback : string) : option string :=
  match effective registered configuration key with
  | None => Some fallback
  | Some (setting_string s) => Some s
  | Some _ => None
  end.

Definition read_number (registered configuration : gmap string Setting)
    (key : string) (fallback : Js.number) : option Js.number :=
  match effective registered configuration key with
  | None => Some fallback
  | Some (setting_number n) => Some n
  | Some _ => None
  end.

Definition read_bool (registered configuration : gmap string Setting)
    (key : string) (fallback : bool) : option bool :=
  match effective registered configuration key with
  | None => Some fallback
  | Some (setting_bool b) => Some b
  | Some _ => None
  end.

(** [config.get("workbench.colorCustomizations", {})]. The default the
    host registers for this setting, and for
    [editor.tokenColorCustomizations] below, is the empty object the code
    passes as fallback. *)
Definition read_colorCustomizations (configuration : gmap string Setting)
  : gmap string Js.value :=
  match configuration !! "workbench.colorCustomizations" with
  | Some (setting_colors m) => m
  | _ => ∅
  end.

(** [colorCustomizations[key] || fallback]. *)
Definition colour (colorCustomizations : gmap string Js.value)
    (key fallback : string) : option string :=
  match colorCustomizations !! key with
  | None | Some Js.undefined => Some fallback
  | Some (Js.str s) => Some (if String.eqb s "" then fallback else s)
  | Some (Js.other _) => None
  end.

(** [tokenCustomizations.key || fallback], with [tokenCustomizations]
    read by [config.get("editor.tokenColorCustomizations", {})]. *)
Definition token (configuration : gmap string Setting)
    (field : TokenColorCustomizations -> string) (key fallback : string)
  : option string :=
  match configuration !! "editor.tokenColorCustomizations" with
  | None | Some setting_undefined => Some fallback
  | Some (setting_tokens t) =>
      Some (if String.eqb (field t) "" then fallback else field t)
  | Some (setting_colors m) => colour m key fallback
  | Some (setting_string _) | Some (setting_number _) | Some (setting_bool _) =>
      Some fallback
  | Some (setting_other _) => None
  end.

(** [hasEditorCustomizations]. *)
Definition hasEditorCustomizations (colorCustomizations : gmap string Js.value)
  : bool :=
  existsb isEditorOrWorkbenchKey (map fst (map_to_list colorCustomizations)).

(** The object literal [colors.tab]. *)
Definition read_terminalTab (colorCustomizations : gmap string Js.value) : option TerminalTab :=
  v_activeForeground ← colour colorCustomizations "terminal.tab.activeForeground" "#ffffff";
  v_activeBackground ← colour colorCustomizations "terminal.tab.activeBackground" "#333333";
  v_inactiveForeground ← colour colorCustomizations "terminal.tab.inactiveForeground" "#cccccc";
  v_inactiveBackground ← colour colorCustomizations "terminal.tab.inactiveBackground" "#2d2d30";
  v_border ← colour colorCustomizations "terminal.tab.border" "#333333";
  Some {| colors_tab_activeForeground := v_activeForeground;
          colors_tab_activeBackground := v_activeBackground;
          colors_tab_inactiveForeground := v_inactiveForeground;
          colors_tab_inactiveBackground := v_inactiveBackground;
          colors_tab_border := v_border |}.

(** The object literal [colors]. *)
Definition read_colors (colorCustomizations : gmap string Js.value) : option Colors :=
  v_background ← colour colorCustomizations "terminal.background" "#000000";
  v_foreground ← colour colorCustomizations "terminal.foreground" "#ffffff";
  v_selection ← colour colorCustomizations "terminal.selectionBackground" "#ffffff40";
  v_selectionBackground ← colour colorCustomizations "terminal.selectionBackground" "#ffffff40";
  v_ansiBlack ← colour colorCustomizations "terminal.ansiBlack" "#000000";
  v_ansiRed ← colour colorCustomizations "terminal.ansiRed" "#cd3131";
  v_ansiGreen ← colour colorCustomizations "terminal.ansiGreen" "#0dbc79";
  v_ansiYellow ← colour colorCustomizations "terminal.ansiYellow" "#e5e510";
  v_ansiBlue ← colour colorCustomizations "terminal.ansiBlue" "#2472c8";
  v_ansiMagenta ← colour colorCustomizations "terminal.ansiMagenta" "#bc3fbc";
  v_ansiCyan ← colour colorCustomizations "terminal.ansiCyan" "#11a8cd";
  v_ansiWhite ← colour colorCustomizations "terminal.ansiWhite" "#e5e5e5";
  v_ansiBrightBlack ← colour colorCustomizations "terminal.ansiBrightBlack" "#666666";
  v_ansiBrightRed ← colour colorCustomizations "terminal.ansiBrightRed" "#f14c4c";
  v_ansiBrightGreen ← colour colorCustomizations "terminal.ansiBrightGreen" "#23d18b";
  v_ansiBrightYellow ← colour colorCustomizations "terminal.ansiBrightYellow" "#f5f543";
  v_ansiBrightBlue ← colour colorCustomizations "terminal.ansiBrightBlue" "#3b8eea";
  v_ansiBrightMagenta ← colour colorCustomizations "terminal.ansiBrightMagenta" "#d670d6";
  v_ansiBrightCyan ← colour colorCustomizations "terminal.ansiBrightCyan" "#29b8db";
  v_ansiBrightWhite ← colour colorCustomizations "terminal.ansiBrightWhite" "#e5e5e5";
  v_border ← colour colorCustomizations "terminal.border" "#333333";
  v_tab ← read_terminalTab colorCustomizations;
  Some {| colors_background := v_background;
          colors_foreground := v_foreground;
          colors_selection := v_selection;
          colors_selectionBackground := v_selectionBackground;
          colors_ansiBlack := v_ansiBlack;
          colors_ansiRed := v_ansiRed;
          colors_ansiGreen := v_ansiGreen;
          colors_ansiYellow := v_ansiYellow;
          colors_ansiBlue := v_ansiBlue;
          colors_ansiMagenta := v_ansiMagenta;
          colors_ansiCyan := v_ansiCyan;
          colors_ansiWhite := v_ansiWhite;
          colors_ansiBrightBlack := v_ansiBrightBlack;
          colors_ansiBrightRed := v_ansiBrightRed;
          colors_ansiBrightGreen := v_ansiBrightGreen;
          colors_ansiBrightYellow := v_ansiBrightYellow;
          colors_ansiBrightBlue := v_ansiBrightBlue;
          colors_ansiBrightMagenta := v_ansiBrightMagenta;
          colors_ansiBrightCyan := v_ansiBrightCyan;
          colors_ansiBrightWhite := v_ansiBrightWhite;
          colors_border := v_border;
          colors_tab := v_tab |}.

Definition read_editor (colorCustomizations : gmap string Js.value) : option EditorCore :=
  v_background ← colour colorCustomizations "editor.background" "#1e1e1e";
  v_foreground ← colour colorCustomizations "editor.foreground" "#d4d4d4";
  v_selectionBackground ← colour colorCustomizations "editor.selectionBackground" "#264f78";
  v_selectionForeground ← colour colorCustomizations "editor.selectionForeground" "#ffffff";
  v_lineHighlightBackground ← colour colorCustomizations "editor.lineHighlightBackground" "#2a2d2e";
  v_cursorColor ← colour colorCustomizations "editorCursor.foreground" "#ffffff";
  v_indentGuideBackground ← colour colorCustomizations "editorIndentGuide.background" "#404040";
  v_indentGuideActiveBackground ← colour colorCustomizations "editorIndentGuide.activeBackground" "#707070";
  Some {| editor_background := v_background;
          editor_foreground := v_foreground;
          editor_selectionBackground := v_selectionBackground;
          editor_selectionForeground := Some v_selectionForeground;
          editor_lineHighlightBackground := v_lineHighlightBackground;
          editor_cursorColor := v_cursorColor;
          editor_indentGuideBackground := v_indentGuideBackground;
          editor_indentGuideActiveBackground := v_indentGuideActiveBackground |}.

Definition read_activityBar (colorCustomizations : gmap string Js.value) : option ActivityBar :=
  v_background ← colour colorCustomizations "activityBar.background" "#333333";
  v_foreground ← colour colorCustomizations "activityBar.foreground" "#ffffff";
  v_inactiveForeground ← colour colorCustomizations "activityBar.inactiveForeground" "#ffffff66";
  v_border ← colour colorCustomizations "activityBar.border" "#333333";
  v_activeBorder ← colour colorCustomizations "activityBar.activeBorder" "#007acc";
  v_activeBackground ← colour colorCustomizations "activityBar.activeBackground" "#333333";
  Some {| activityBar_background := v_background;
          activityBar_foreground := v_foreground;
          activityBar_inactiveForeground := v_inactiveForeground;
          activityBar_border := v_border;
          activityBar_activeBorder := v_activeBorder;
          activityBar_activeBackground := v_activeBackground |}.

Definition read_sideBar (colorCustomizations : gmap string Js.value) : option SideBar :=
  v_background ← colour colorCustomizations "sideBar.background" "#252526";
  v_foreground ← colour colorCustomizations "sideBar.foreground" "#cccccc";
  v_border ← colour colorCustomizations "sideBar.border" "#2d2d30";
  Some {| sideBar_background := v_background;
          sideBar_foreground := v_foreground;
          sideBar_border := v_border |}.

Definition read_statusBar (colorCustomizations : gmap string Js.value) : option StatusBar :=
  v_background ← colour colorCustomizations "statusBar.background" "#007acc";
  v_foreground ← colour colorCustomizations "statusBar.foreground" "#ffffff";
  v_border ← colour colorCustomizations "statusBar.border" "#007acc";
  v_debuggingBackground ← colour colorCustomizations "statusBar.debuggingBackground" "#cc6633";
  v_debuggingForeground ← colour colorCustomizations "statusBar.debuggingForeground" "#ffffff";
  v_noFolderBackground ← colour colorCustomizations "statusBar.noFolderBackground" "#68217a";
  v_noFolderForeground ← colour colorCustomizations "statusBar.noFolderForeground" "#ffffff";
  Some {| statusBar_background := v_background;
          statusBar_foreground := v_foreground;
          statusBar_border := v_border;
          statusBar_debuggingBackground := v_debuggingBackground;
          statusBar_debuggingForeground := v_debuggingForeground;
          statusBar_noFolderBackground := v_noFolderBackground;
          statusBar_noFolderForeground := v_noFolderForeground |}.

Definition read_titleBar (colorCustomizations : gmap string Js.value) : option TitleBar :=
  v_activeBackground ← colour colorCustomizations "titleBar.activeBackground" "#3c3c3c";
  v_activeForeground ← colour colorCustomizations "titleBar.activeForeground" "#cccccc";
  v_inactiveBackground ← colour colorCustomizations "titleBar.inactiveBackground" "#3c3c3c";
  v_inactiveForeground ← colour colorCustomizations "titleBar.inactiveForeground" "#999999";
  v_border ← colour colorCustomizations "titleBar.border" "#333333";
  Some {| titleBar_activeBackground := v_activeBackground;
          titleBar_activeForeground := v_activeForeground;
          titleBar_inactiveBackground := v_inactiveBackground;
          titleBar_inactiveForeground := v_inactiveForeground;
          titleBar_border := v_border |}.

Definition read_panel (colorCustomizations : gmap string Js.value) : option Panel :=
  v_background ← colour colorCustomizations "panel.background" "#1e1e1e";
  v_border ← colour colorCustomizations "panel.border" "#333333";
  v_dropBorder ← colour colorCustomizations "panel.dropBorder" "#007acc";
  Some {| panel_background := v_background;
          panel_border := v_border;
          panel_dropBorder := v_dropBorder |}.

Definition read_tab (colorCustomizations : gmap string Js.value) : option EditorTab :=
  v_activeBackground ← colour colorCustomizations "tab.activeBackground" "#1e1e1e";
  v_activeForeground ← colour colorCustomizations "tab.activeForeground" "#ffffff";
  v_activeBorder ← colour colorCustomizations "tab.activeBorder" "#007acc";
  v_activeBorderTop ← colour colorCustomizations "tab.activeBorderTop" "#007acc";
  v_inactiveBackground ← colour colorCustomizations "tab.inactiveBackground" "#2d2d30";
  v_inactiveForeground ← colour colorCustomizations "tab.inactiveForeground" "#ffffff80";
  v_inactiveModifiedBorder ← colour colorCustomizations "tab.inactiveModifiedBorder" "#3399cc";
  v_unfocusedActiveBackground ← colour colorCustomizations "tab.unfocusedActiveBackground" "#1e1e1e";
  v_unfocusedActiveForeground ← colour colorCustomizations "tab.unfocusedActiveForeground" "#ffffff80";
  v_unfocusedInactiveBackground ← colour colorCustomizations "tab.unfocusedInactiveBackground" "#2d2d30";
  v_unfocusedInactiveForeground ← colour colorCustomizations "tab.unfocusedInactiveForeground" "#ffffff40";
  v_border ← colour colorCustomizations "tab.border" "#333333";
  Some {| tab_activeBackground := v_activeBackground;
          tab_activeForeground := v_activeForeground;
          tab_activeBorder := v_activeBorder;
          tab_activeBorderTop := v_activeBorderTop;
          tab_inactiveBackground := v_inactiveBackground;
          tab_inactiveForeground := v_inactiveForeground;
          tab_inactiveModifiedBorder := v_inactiveModifiedBorder;
          tab_unfocusedActiveBackground := v_unfocusedActiveBackground;
          tab_unfocusedActiveForeground := v_unfocusedActiveForeground;
          tab_unfocusedInactiveBackground := v_unfocusedInactiveBackground;
          tab_unfocusedInactiveForeground := v_unfocusedInactiveForeground;
          tab_border := v_border |}.

Definition read_input (colorCustomizations : gmap string Js.value) : option Input :=
  v_background ← colour colorCustomizations "input.background" "#3c3c3c";
  v_foreground ← colour colorCustomizations "input.foreground" "#cccccc";
  v_border ← colour colorCustomizations "input.border" "#3c3c3c";
  v_placeholderForeground ← colour colorCustomizations "input.placeholderForeground" "#a6a6a6";
  Some {| input_background := v_background;
          input_foreground := v_foreground;
          input_border := v_border;
          input_placeholderForeground := v_placeholderForeground |}.

Definition read_button (colorCustomizations : gmap string Js.value) : option Button :=
  v_background ← colour colorCustomizations "button.background" "#0e639c";
  v_foreground ← colour colorCustomizations "button.foreground" "#ffffff";
  v_hoverBackground ← colour colorCustomizations "button.hoverBackground" "#1177bb";
  v_secondaryBackground ← colour colorCustomizations "button.secondaryBackground" "#5f6a79";
  v_secondaryForeground ← colour colorCustomizations "button.secondaryForeground" "#ffffff";
  v_secondaryHoverBackground ← colour colorCustomizations "button.secondaryHoverBackground" "#4c5561";
  Some {| button_background := v_background;
          button_foreground := v_foreground;
          button_hoverBackground := v_hoverBackground;
          button_secondaryBackground := v_secondaryBackground;
          button_secondaryForeground := v_secondaryForeground;
          button_secondaryHoverBackground := v_secondaryHoverBackground |}.

Definition read_checkbox (colorCustomizations : gmap string Js.value) : option Checkbox :=
  v_background ← colour colorCustomizations "checkbox.background" "#3c3c3c";
  v_foreground ← colour colorCustomizations "checkbox.foreground" "#ffffff";
  v_border ← colour colorCustomizations "checkbox.border" "#3c3c3c";
  Some {| checkbox_background := v_background;
          checkbox_foreground := v_foreground;
          checkbox_border := v_border |}.

Definition read_badge (colorCustomizations : gmap string Js.value) : option Badge :=
  v_background ← colour colorCustomizations "badge.background" "#007acc";
  v_foreground ← colour colorCustomizations "badge.foreground" "#ffffff";
  Some {| badge_background := v_background;
          badge_foreground := v_foreground |}.

Definition read_progressBar (colorCustomizations : gmap string Js.value) : option ProgressBar :=
  v_background ← colour colorCustomizations "progressBar.background" "#007acc";
  Some {| progressBar_background := v_background |}.

Definition read_dropdown (colorCustomizations : gmap string Js.value) : option Dropdown :=
  v_background ← colour colorCustomizations "dropdown.background" "#3c3c3c";
  v_foreground ← colour colorCustomizations "dropdown.foreground" "#cccccc";
  v_border ← colour colorCustomizations "dropdown.border" "#3c3c3c";
  Some {| dropdown_background := v_background;
          dropdown_foreground := v_foreground;
          dropdown_border := v_border |}.

Definition read_list (colorCustomizations : gmap string Js.value) : option ListTree :=
  v_activeSelectionBackground ← colour colorCustomizations "list.activeSelectionBackground" "#094771";
  v_activeSelectionForeground ← colour colorCustomizations "list.activeSelectionForeground" "#ffffff";
  v_inactiveSelectionBackground ← colour colorCustomizations "list.inactiveSelectionBackground" "#37373d";
  v_inactiveSelectionForeground ← colour colorCustomizations "list.inactiveSelectionForeground" "#cccccc";
  v_hoverBackground ← colour colorCustomizations "list.hoverBackground" "#2a2d2e";
  v_hoverForeground ← colour colorCustomizations "list.hoverForeground" "#cccccc";
  v_focusBackground ← colour colorCustomizations "list.focusBackground" "#062f4a";
  v_focusForeground ← colour colorCustomizations "list.focusForeground" "#cccccc";
  Some {| list_activeSelectionBackground := v_activeSelectionBackground;
          list_activeSelectionForeground := v_activeSelectionForeground;
          list_inactiveSelectionBackground := v_inactiveSelectionBackground;
          list_inactiveSelectionForeground := v_inactiveSelectionForeground;
          list_hoverBackground := v_hoverBackground;
          list_hoverForeground := v_hoverForeground;
          list_focusBackground := v_focusBackground;
          list_focusForeground := v_focusForeground |}.

Definition read_scrollbar (colorCustomizations : gmap string Js.value) : option Scrollbar :=
  v_shadow ← colour colorCustomizations "scrollbar.shadow" "#000000";
  Some {| scrollbar_shadow := v_shadow |}.

Definition read_syntax (configuration : gmap string Setting) : option Syntax :=
  v_comment ← token configuration token_comments "comments" "#6a9955";
  v_keyword ← token configuration token_keywords "keywords" "#569cd6";
  v_string ← token configuration token_strings "strings" "#ce9178";
  v_number ← token configuration token_numbers "numbers" "#b5cea8";
  v_function ← token configuration token_functions "functions" "#dcdcaa";
  v_variable ← token configuration token_variables "variables" "#9cdcfe";
  v_type ← token configuration token_types "types" "#4ec9b0";
  v_class ← token configuration token_types "types" "#4ec9b0";
  v_namespace ← token configuration token_types "types" "#4ec9b0";
  v_property ← token configuration token_variables "variables" "#9cdcfe";
  v_tag ← token configuration token_keywords "keywords" "#569cd6";
  Some {| syntax_comment := v_comment;
          syntax_keyword := v_keyword;
          syntax_string := v_string;
          syntax_number := v_number;
          syntax_function := v_function;
          syntax_variable := v_variable;
          syntax_type := v_type;
          syntax_class := v_class;
          syntax_interface := "#b8d7a3";
          syntax_namespace := v_namespace;
          syntax_operator := "#d4d4d4";
          syntax_punctuation := "#d4d4d4";
          syntax_constant := "#4fc1ff";
          syntax_property := v_property;
          syntax_tag := v_tag;
          syntax_attribute := "#92c5f8" |}.

(** The object literal assigned to [currentTheme.editorTheme]. *)
Definition read_editorTheme (configuration : gmap string Setting)
    (colorCustomizations : gmap string Js.value) : option EditorTheme :=
  v_editor ← read_editor colorCustomizations;
  v_activityBar ← read_activityBar colorCustomizations;
  v_sideBar ← read_sideBar colorCustomizations;
  v_statusBar ← read_statusBar colorCustomizations;
  v_titleBar ← read_titleBar colorCustomizations;
  v_panel ← read_panel colorCustomizations;
  v_tab ← read_tab colorCustomizations;
  v_input ← read_input colorCustomizations;
  v_button ← read_button colorCustomizations;
  v_checkbox ← read_checkbox colorCustomizations;
  v_badge ← read_badge colorCustomizations;
  v_progressBar ← read_progressBar colorCustomizations;
  v_dropdown ← read_dropdown colorCustomizations;
  v_list ← read_list colorCustomizations;
  v_scrollbar ← read_scrollbar colorCustomizations;
  v_syntax ← read_syntax configuration;
  Some {| et_editor := v_editor;
          et_activityBar := v_activityBar;
          et_sideBar := v_sideBar;
          et_sideBarSectionHeader := None;
          et_panelTitle := None;
          et_statusBar := v_statusBar;
          et_titleBar := v_titleBar;
          et_panel := v_panel;
          et_tab := v_tab;
          et_input := v_input;
          et_dropdown := v_dropdown;
          et_button := v_button;
          et_checkbox := v_checkbox;
          et_badge := v_badge;
          et_progressBar := v_progressBar;
          et_list := v_list;
          et_scrollbar := v_scrollbar;
          et_syntax := v_syntax |}.

(** The object literal [font]. *)
Definition read_font (registered configuration : gmap string Setting)
  : option Font :=
  v_family ← read_string registered configuration "terminal.integrated.fontFamily" "";
  v_size ← read_number registered configuration "terminal.integrated.fontSize" (Js.of_Z 14);
  v_weight ← read_string registered configuration "terminal.integrated.fontWeight" "normal"
             ≫= FontWeight_of_string;
  v_ligatures ← read_bool registered configuration "editor.fontLigatures" false;
  v_lineHeight ← read_number registered configuration "terminal.integrated.lineHeight" lit_1_2;
  Some {| font_family := v_family; font_size := v_size; font_weight := v_weight;
          font_ligatures := v_ligatures; font_lineHeight := v_lineHeight |}.

(** The object literal [cursor]. *)
Definition read_cursor (registered configuration : gmap string Setting)
    (colorCustomizations : gmap string Js.value) : option Cursor :=
  v_style ← read_string registered configuration "terminal.integrated.cursorStyle" "block"
            ≫= CursorStyle_of_string;
  v_blinking ← read_bool registered configuration "terminal.integrated.cursorBlinking" false;
  v_color ← colour colorCustomizations "terminalCursor.foreground" "#ffffff";
  Some {| cursor_style := v_style; cursor_blinking := v_blinking;
          cursor_color := v_color |}.

(** [getCurrentTheme]; [registered] holds the defaults the host has
    registered, [created] and [modified] are its two clock readings. *)
Definition getCurrentTheme (registered configuration : gmap string Setting)
    (created modified : string) : option TerminalTheme :=
  let colorCustomizations := read_colorCustomizations configuration in
  (* Check if there are any editor/workbench customizations *)
  let hasEditorCustomizations := hasEditorCustomizations colorCustomizations in
  (* Extract current terminal settings *)
  v_font ← read_font registered configuration;
  v_cursor ← read_cursor registered configuration colorCustomizations;
  v_colors ← read_colors colorCustomizations;
  (* Add editor theme data if there are editor customizations *)
  v_editorTheme ←
    (if hasEditorCustomizations
     then Some <$> read_editorTheme configuration colorCustomizations
     else Some None);
  Some {| theme_name := "Current Settings";
          theme_version := "1.0.0";
          theme_author := None;
          theme_description := None;
          theme_created := created;
          theme_modified := modified;
          theme_font := v_font;
          theme_cursor := v_cursor;
          theme_colors := v_colors;
          theme_editorTheme := v_editorTheme;
          theme_integration :=
            {| applyToEditor := hasEditorCustomizations;
               applyToTerminal := true;
               applyToWorkbench := hasEditorCustomizations;
               customCss := None |};
          theme_effects :=
            {| transparency := Js.of_Z 0; blur := Js.of_Z 0;
               animations := false; particleEffects := false;
               glowEffect := false; scanlines := false; crtEffect := false |} |}.

End Current.




(** The defaults a host registers for the settings the reader takes as
    string, number or boolean; the line height differs from the fallback
    [1.2] of the code. *)
Module SampleHost.

Definition registered : gmap string Setting :=
  Js.object [
    ("terminal.integrated.fontFamily", setting_string "");
    ("terminal.integrated.fontSize", setting_number (Js.of_Z 14));
    ("terminal.integrated.fontWeight", setting_string "normal");
    ("terminal.integrated.lineHeight", setting_number (Js.of_Z 1));
    ("terminal.integrated.cursorStyle", setting_string "block");
    ("terminal.integrated.cursorBlinking", setting_bool false);
    ("editor.fontLigatures", setting_bool false)
  ].

End SampleHost.



(** ** Facts about objects and the configuration store *)

Section ObjectFacts.
Context {V : Type}.

Lemma object_snoc (entries : list (string * V)) (k : string) (v : V) :
  Js.object (entries ++ [(k, v)]) = <[k := v]> (Js.object entries).
Proof. unfold Js.object. by rewrite fold_left_app. Qed.

(** The keys of an object literal are the keys written in it. *)
Lemma dom_object (entries : list (string * V)) :
  dom (Js.object entries) = (list_to_set (entries.*1) : gset string).
Proof.
  induction entries as [|[k v] entries IH] using rev_ind.
  - unfold Js.object; simpl. apply dom_empty_L.
  - rewrite object_snoc, dom_insert_L, IH, fmap_app, list_to_set_app_L.
    simpl. rewrite (right_id_L ∅ (∪)). apply (comm_L (∪)).
Qed.

End ObjectFacts.

Lemma get_colorCustomizations_update_colors m st :
  get_colorCustomizations
    (config_update "workbench.colorCustomizations" (setting_colors m) st) = m.
Proof.
  unfold get_colorCustomizations, config_update, store; simpl.
  by rewrite lookup_insert_eq.
Qed.

Lemma get_colorCustomizations_update_ne key v st :
  key <> "workbench.colorCustomizations" ->
  get_colorCustomizations (config_update key v st) = get_colorCustomizations st.
Proof.
  intros Hne. unfold get_colorCustomizations, config_update, store; simpl.
  destruct v; by rewrite ?lookup_insert_ne, ?lookup_delete_ne.
Qed.

Lemma run_app us vs st : run (us ++ vs) st = run vs (run us st).
Proof. apply fold_left_app. Qed.


Lemma run_configuration us st :
  configuration (run us st) = fold_left store us (configuration st).
Proof.
  revert st. induction us as [|[k v] us IH]; intros st; simpl; [done|].
  by rewrite IH.
Qed.

Lemma run_backups us st : backups (run us st) = backups st.
Proof.
  revert st. induction us as [|[k v] us IH]; intros st; simpl; [done|].
  by rewrite IH.
Qed.

Lemma run_storedBackups us st : storedBackups (run us st) = storedBackups st.
Proof.
  revert st. induction us as [|[k v] us IH]; intros st; simpl; [done|].
  by rewrite IH.
Qed.

(** ** The normal form of [applyTheme] *)

Section ApplyFacts.
Variable getCurrentTheme :
  gmap string Setting -> string -> string -> TerminalTheme.

Lemma backup_step_configuration st :
  configuration (backup_step getCurrentTheme st) = configuration st.
Proof. unfold backup_step. by destruct (get_bool_default_true _ st). Qed.


Lemma backup_step_colorCustomizations st :
  get_colorCustomizations (backup_step getCurrentTheme st)
  = get_colorCustomizations st.
Proof. unfold backup_step. by destruct (get_bool_default_true _ st). Qed.

(** [applyTheme] is the backup step, then the calls listed by
    [applyTheme_updates], then the recording of the applied document. *)
Lemma applyTheme_run theme st :
  applyTheme getCurrentTheme theme st
  = with_currentTheme (Some theme)
      (run (applyTheme_updates theme (get_colorCustomizations st))
         (backup_step getCurrentTheme st)).
Proof.
  unfold applyTheme, applyTheme_updates, writtenColors, transparencyApplies,
    mergedColors, editorPart, workbenchPart, applyCustomEffects.
  fold (backup_step getCurrentTheme st).
  rewrite <- (backup_step_colorCustomizations st).
  generalize (backup_step getCurrentTheme st). intros st0.
  destruct (applyToEditor (theme_integration theme)),
    (theme_editorTheme theme) as [et|],
    (applyToWorkbench (theme_integration theme)),
    (font_ligatures (theme_font theme)),
    (Js.truthy (customCss (theme_integration theme))),
    (Js.gt (transparency (theme_effects theme)) (Js.of_Z 0));
    cbn [andb app run fold_left fst snd];
    repeat first
      [ rewrite get_colorCustomizations_update_colors
      | rewrite get_colorCustomizations_update_ne by done ];
    unfold Js.Object_assign;
    rewrite <- ?insert_union_l, ?(left_id_L ∅ (∪)), ?(right_id_L ∅ (∪)),
      ?(assoc_L (∪));
    reflexivity.
Qed.


Lemma applyTheme_configuration theme st :
  configuration (applyTheme getCurrentTheme theme st)
  = fold_left store (applyTheme_updates theme (get_colorCustomizations st))
      (configuration st).
Proof.
  rewrite applyTheme_run.
  change (configuration (with_currentTheme ?t ?s)) with (configuration s).
  by rewrite run_configuration, backup_step_configuration.
Qed.

Lemma get_colorCustomizations_run_ne us st :
  Forall (fun update => update.1 <> "workbench.colorCustomizations") us ->
  get_colorCustomizations (run us st) = get_colorCustomizations st.
Proof.
  revert st. induction us as [|[k v] us IH]; intros st Hus;
    cbn [run fold_left fst snd]; [done|].
  inversion Hus as [|? ? Hk Hus']; subst.
  rewrite IH by done. by apply get_colorCustomizations_update_ne.
Qed.

(** The colour map after [applyTheme]: the written entries laid over the
    map found in the store. *)
Lemma applyTheme_colorCustomizations theme st :
  get_colorCustomizations (applyTheme getCurrentTheme theme st)
  = writtenColors theme ∪ get_colorCustomizations st.
Proof.
  rewrite applyTheme_run.
  change (get_colorCustomizations (with_currentTheme ?t ?s))
    with (get_colorCustomizations s).
  unfold applyTheme_updates, writtenColors.
  rewrite !(assoc_L app).
  destruct (transparencyApplies theme).
  - rewrite run_app. cbn [run fold_left fst snd].
    apply get_colorCustomizations_update_colors.
  - rewrite app_nil_r, run_app.
    rewrite get_colorCustomizations_run_ne.
    + rewrite run_app. cbn [run fold_left fst snd].
      apply get_colorCustomizations_update_colors.
    + destruct (font_ligatures (theme_font theme)); repeat constructor; done.
Qed.

End ApplyFacts.


(** ** Keys and values of the written colours *)










(** ** Idempotence and frame of the colour map *)

Section ColourMap.
Variable getCurrentTheme :
  gmap string Setting -> string -> string -> TerminalTheme.

(** C4. Applying a document to the state produced by applying it yields
    the same colour map: [apply(d, apply(d, m).newMap).newMap =
    apply(d, m).newMap]. The same holds from any state whose colour map is
    that result, so nothing accumulates over repeated applications. *)
Theorem applyTheme_colorMap_idempotent theme st :
  newMap getCurrentTheme theme (applyTheme getCurrentTheme theme st)
  = newMap getCurrentTheme theme st
  /\ forall st',
       get_colorCustomizations st' = newMap getCurrentTheme theme st ->
       newMap getCurrentTheme theme st' = newMap getCurrentTheme theme st.
Proof.
  assert (Hidem : forall m : gmap string Js.value,
             writtenColors theme ∪ (writtenColors theme ∪ m)
             = writtenColors theme ∪ m).
  { intros m. by rewrite (assoc_L (∪)), (idemp_L (∪)). }
  unfold newMap. split.
  - rewrite !applyTheme_colorCustomizations. apply Hidem.
  - intros st' Hst'. rewrite applyTheme_colorCustomizations, Hst'.
    rewrite applyTheme_colorCustomizations. apply Hidem.
Qed.





End ColourMap.

(** The second application changes nothing even on a map that already
    held unrelated and overlapping entries. *)
Lemma applyTheme_colorMap_idempotent_witness :
  get_colorCustomizations
    (applyTheme Sample.readBack Sample.neonGlow_editor Sample.customised)
  = newMap Sample.readBack Sample.neonGlow_editor Sample.customised
  /\ newMap Sample.readBack Sample.neonGlow_editor
       (applyTheme Sample.readBack Sample.neonGlow_editor Sample.customised)
     = newMap Sample.readBack Sample.neonGlow_editor Sample.customised.
Proof.
  assert (H : get_colorCustomizations
    (applyTheme Sample.readBack Sample.neonGlow_editor Sample.customised)
  = newMap Sample.readBack Sample.neonGlow_editor Sample.customised).
  { unfold newMap. reflexivity. }
  split; [exact H|].
  exact (proj2 (applyTheme_colorMap_idempotent Sample.readBack
                  Sample.neonGlow_editor Sample.customised) _ H).
Defined.





(** ** The settings written by [applyTheme] *)

Lemma lookup_store_ne c key v key' :
  key <> key' -> store c (key, v) !! key' = c !! key'.
Proof.
  intros Hne. unfold store; cbn [fst snd].
  destruct v; by rewrite ?lookup_insert_ne, ?lookup_delete_ne.
Qed.


Lemma lookup_fold_store_ne us c key :
  Forall (fun update => update.1 <> key) us ->
  fold_left store us c !! key = c !! key.
Proof.
  revert c. induction us as [|[k v] us IH]; intros c Hus; cbn [fold_left]; [done|].
  inversion Hus as [|? ? Hk Hus']; subst.
  rewrite IH by done. by apply lookup_store_ne.
Qed.

Lemma laterUpdates_keys theme m :
  Forall (fun update =>
            update.1 = "editor.tokenColorCustomizations"
            \/ update.1 = "workbench.colorCustomizations"
            \/ update.1 = "editor.fontLigatures")
    (laterUpdates theme m).
Proof.
  unfold laterUpdates, applyTheme_updates. cbn [app drop].
  destruct (applyToEditor (theme_integration theme)),
    (theme_editorTheme theme) as [et|],
    (font_ligatures (theme_font theme)),
    (transparencyApplies theme);
    cbn [app drop];
    repeat match goal with
           | |- Forall _ (_ :: _) => constructor
           | |- Forall _ [] => constructor
           end; cbn [fst]; auto.
Qed.

Lemma laterUpdates_not key theme m :
  key <> "editor.tokenColorCustomizations" ->
  key <> "workbench.colorCustomizations" ->
  key <> "editor.fontLigatures" ->
  Forall (fun update => update.1 <> key) (laterUpdates theme m).
Proof.
  intros H1 H2 H3. eapply Forall_impl; [apply laterUpdates_keys|].
  intros [k v]; cbn [fst]. intros [-> | [-> | ->]]; congruence.
Qed.

Lemma applyTheme_updates_split theme m :
  applyTheme_updates theme m
  = (take 7 (applyTheme_updates theme m) ++ laterUpdates theme m)%list.
Proof. unfold laterUpdates. by rewrite take_drop. Qed.

Section SettingsWritten.
Variable getCurrentTheme :
  gmap string Setting -> string -> string -> TerminalTheme.

(** A font or cursor setting is decided by the first seven calls. *)
Lemma applyTheme_discrete_lookup theme st key :
  key <> "editor.tokenColorCustomizations" ->
  key <> "workbench.colorCustomizations" ->
  key <> "editor.fontLigatures" ->
  configuration (applyTheme getCurrentTheme theme st) !! key
  = fold_left store
      (take 7 (applyTheme_updates theme (get_colorCustomizations st)))
      (configuration st) !! key.
Proof.
  intros H1 H2 H3.
  rewrite applyTheme_configuration, applyTheme_updates_split at 1.
  rewrite fold_left_app.
  by apply lookup_fold_store_ne, laterUpdates_not.
Qed.


End SettingsWritten.



Section FlagIgnored.
Variable getCurrentTheme :
  gmap string Setting -> string -> string -> TerminalTheme.


Lemma applyTheme_backups theme st :
  backups (applyTheme getCurrentTheme theme st)
  = backups (backup_step getCurrentTheme st)
  /\ storedBackups (applyTheme getCurrentTheme theme st)
     = storedBackups (backup_step getCurrentTheme st).
Proof.
  rewrite applyTheme_run.
  change (backups (with_currentTheme ?t ?s)) with (backups s).
  change (storedBackups (with_currentTheme ?t ?s)) with (storedBackups s).
  by rewrite run_backups, run_storedBackups.
Qed.



End FlagIgnored.



(** ** Transparency *)

Lemma Z_range_elem lo n z :
  (lo <= z < lo + Z.of_nat n)%Z -> In z (Z_range lo n).
Proof.
  intros Hz. unfold Z_range. apply in_map_iff.
  exists (Z.to_nat (z - lo)). split; [lia|].
  apply in_seq. lia.
Qed.




(** The literal is the correctly rounded quotient 255/100. *)
Lemma lit_2_55_nearest : Js.lit_2_55 = Js.div (Js.of_Z 255) (Js.of_Z 100).
Proof. by vm_compute. Qed.


Section Transparency.
Variable getCurrentTheme :
  gmap string Setting -> string -> string -> TerminalTheme.




End Transparency.




(** ** The backup ring *)







(** ** The theme store *)

Lemma findIndex_None name themes :
  findIndex name themes = None <->
  Forall (fun t => theme_name t <> name) themes.
Proof.
  unfold findIndex. rewrite fmap_None. apply list_find_None.
Qed.

Lemma count_named_absent name themes :
  findIndex name themes = None -> count_named name themes = 0.
Proof.
  rewrite findIndex_None. unfold count_named.
  induction 1 as [|t themes Ht _ IH]; [done|].
  by rewrite filter_cons_False.
Qed.

Lemma findIndex_appended name themes entry :
  findIndex name themes = None ->
  theme_name entry = name ->
  findIndex name (themes ++ [entry]) = Some (length themes).
Proof.
  intros Hnone Hname. unfold findIndex in *.
  apply fmap_None in Hnone. rewrite list_find_app_r by done.
  cbn [list_find]. rewrite decide_True by done. done.
Qed.

Lemma saveTheme_insert theme st :
  findIndex (theme_name theme) (savedThemes st) = None ->
  savedThemes (saveTheme theme st)
  = (savedThemes st
     ++ [set_created (clock st (S (clock_reads st)))
           (set_modified (clock st (clock_reads st)) theme)])%list
  /\ clock (saveTheme theme st) = clock st
  /\ clock_reads (saveTheme theme st) = S (S (clock_reads st)).
Proof. intros Hnone. unfold saveTheme. cbn [Date_now]. by rewrite Hnone. Qed.

Lemma saveTheme_overwrite theme st i :
  findIndex (theme_name theme) (savedThemes st) = Some i ->
  savedThemes (saveTheme theme st)
  = <[i := set_modified (clock st (clock_reads st)) theme]> (savedThemes st).
Proof. intros Hsome. unfold saveTheme. cbn [Date_now]. by rewrite Hsome. Qed.

(** C6, as the code has it. A save whose name matches no entry appends
    the document with [modified] and [created] set to the clock readings
    of that save. A save whose name matches an entry replaces that entry
    in place by the incoming document with [modified] set to the time of
    the save: the list keeps its length and order, and [created] is the
    value the incoming document carries. Saving two documents of one
    fresh name in a row leaves one entry of that name, at the position
    the first save gave it, with the second save's [modified] and the
    second document's [created]; that is the first save's [created] when
    the second document carries it. *)
Theorem saveTheme_upsert first second st :
  theme_name first = theme_name second ->
  findIndex (theme_name first) (savedThemes st) = None ->
  let position := length (savedThemes st) in
  let reads := clock_reads st in
  let st1 := saveTheme first st in
  let st2 := saveTheme second st1 in
  savedThemes st1
  = (savedThemes st
     ++ [set_created (clock st (S reads)) (set_modified (clock st reads) first)])%list
  /\ savedThemes st2
     = <[position := set_modified (clock st (S (S reads))) second]>
         (savedThemes st1)
  /\ savedThemes st2
     = (savedThemes st ++ [set_modified (clock st (S (S reads))) second])%list
  /\ count_named (theme_name first) (savedThemes st2) = 1
  /\ (forall entry, savedThemes st2 !! position = Some entry ->
        theme_modified entry = clock st (S (S reads))
        /\ theme_created entry = theme_created second)
  /\ (theme_created second = clock st (S reads) ->
      forall entry, savedThemes st2 !! position = Some entry ->
        theme_created entry = clock st (S reads))
  /\ (forall theme st' i,
        findIndex (theme_name theme) (savedThemes st') = Some i ->
        savedThemes (saveTheme theme st')
        = <[i := set_modified (clock st' (clock_reads st')) theme]>
            (savedThemes st')).
Proof.
  intros Hname Hnone position reads st1 st2.
  destruct (saveTheme_insert first st Hnone) as (Hsaved1 & Hclock1 & Hreads1).
  fold st1 in Hsaved1, Hclock1, Hreads1.
  assert (Hfound : findIndex (theme_name second) (savedThemes st1)
                   = Some position).
  { rewrite Hsaved1, <- Hname. by apply findIndex_appended. }
  pose proof (saveTheme_overwrite second st1 position Hfound) as Hsaved2.
  fold st2 in Hsaved2. rewrite Hclock1, Hreads1 in Hsaved2.
  assert (Hlist : savedThemes st2
                  = (savedThemes st
                     ++ [set_modified (clock st (S (S reads))) second])%list).
  { rewrite Hsaved2, Hsaved1. subst position.
    rewrite insert_app_r_alt by lia. by rewrite Nat.sub_diag. }
  assert (Hentry : savedThemes st2 !! position
                   = Some (set_modified (clock st (S (S reads))) second)).
  { rewrite Hlist. subst position. by rewrite list_lookup_middle. }
  split; [exact Hsaved1|]. split; [exact Hsaved2|]. split; [exact Hlist|].
  split.
  { rewrite Hlist. unfold count_named. rewrite filter_app, length_app.
    fold (count_named (theme_name first) (savedThemes st)).
    rewrite count_named_absent by done.
    by rewrite filter_cons_True, filter_nil by (by symmetry). }
  split.
  { intros entry Hlookup. rewrite Hentry in Hlookup. by injection Hlookup as <-. }
  split.
  { intros Hcarried entry Hlookup. rewrite Hentry in Hlookup.
    by injection Hlookup as <-. }
  intros theme st' i. apply saveTheme_overwrite.
Qed.

Lemma saveTheme_upsert_witness :
  savedThemes
    (saveTheme Sample.neonGlow_v2 (saveTheme Sample.neonGlow Sample.fresh))
  = [set_modified "T2" Sample.neonGlow_v2].
Proof.
  exact (proj1 (proj2 (proj2
           (saveTheme_upsert Sample.neonGlow Sample.neonGlow_v2 Sample.fresh
              eq_refl eq_refl)))).
Defined.

(** C6 as stated fails when the second document carries another
    [created]: after the first save the entry was created at ["T1"];
    after the second it carries the second document's [created]. *)
Lemma saveTheme_overwrite_replaces_created :
  theme_name Sample.neonGlow_v2 = theme_name Sample.neonGlow
  /\ theme_created <$> savedThemes (saveTheme Sample.neonGlow Sample.fresh)
     = ["T1"]
  /\ theme_created <$> savedThemes
       (saveTheme Sample.neonGlow_v2 (saveTheme Sample.neonGlow Sample.fresh))
     = ["2025-01-01T00:00:00.000Z"]
  /\ theme_created <$> savedThemes
       (saveTheme Sample.neonGlow_v2 (saveTheme Sample.neonGlow Sample.fresh))
     <> theme_created <$> savedThemes (saveTheme Sample.neonGlow Sample.fresh).
Proof.
  assert (H1 : theme_created <$> savedThemes (saveTheme Sample.neonGlow Sample.fresh)
               = ["T1"]) by reflexivity.
  assert (H2 : theme_created <$> savedThemes
                 (saveTheme Sample.neonGlow_v2
                    (saveTheme Sample.neonGlow Sample.fresh))
               = ["2025-01-01T00:00:00.000Z"]) by reflexivity.
  split; [reflexivity|]. split; [exact H1|]. split; [exact H2|].
  rewrite H1, H2. discriminate.
Qed.

(** ** The time rule of the scheduler *)

Lemma hour_check_all :
  forallb (fun a => forallb (hour_check a) (Z_range 0 24)) (Z_range 0 24) = true.
Proof. by vm_compute. Qed.

Lemma hour_comparisons a b :
  (0 <= a <= 23)%Z -> (0 <= b <= 23)%Z ->
  Js.ge (Js.of_Z a) (Js.of_Z b) = (b <=? a)%Z
  /\ Js.lt (Js.of_Z a) (Js.of_Z b) = (a <? b)%Z.
Proof.
  intros Ha Hb.
  assert (Hcheck : hour_check a b = true).
  { assert (Hrow : forallb (hour_check a) (Z_range 0 24) = true).
    { apply (proj1 (forallb_forall _ _) hour_check_all).
      apply Z_range_elem. lia. }
    apply (proj1 (forallb_forall _ _) Hrow).
    apply Z_range_elem. lia. }
  unfold hour_check in Hcheck.
  apply andb_true_iff in Hcheck as [Hge Hlt].
  by apply Bool.eqb_prop in Hge, Hlt.
Qed.

(** C5. For hours between 0 and 23 the time rule selects the light theme
    exactly on the half-open interval [lightHour <= h < darkHour], and
    the dark theme otherwise; when [lightHour >= darkHour] the interval is
    empty and the dark theme is selected at every hour. With 6 and 18:
    dark at 5, light at 6 and at 17, dark at 18. The tick of the
    scheduler, [applyTimeBasedTheme], acts on that selection: it is
    [applyThemeByName] at the selected name, so where a saved theme has
    that name the tick applies this theme. *)
Theorem time_rule_half_open getCurrentTheme config light dark hour st :
  lightHour config = Js.of_Z light ->
  darkHour config = Js.of_Z dark ->
  (0 <= light <= 23)%Z -> (0 <= dark <= 23)%Z -> (0 <= hour <= 23)%Z ->
  (shouldUseLightTheme config (Js.of_Z hour) = true
   <-> (light <= hour < dark)%Z)
  /\ ((light <= hour < dark)%Z ->
      timeBasedThemeName config (Js.of_Z hour) = lightTheme config)
  /\ (~ (light <= hour < dark)%Z ->
      timeBasedThemeName config (Js.of_Z hour) = darkTheme config)
  /\ ((dark <= light)%Z ->
      timeBasedThemeName config (Js.of_Z hour) = darkTheme config)
  /\ (light = 6%Z -> dark = 18%Z ->
      (hour = 5%Z -> timeBasedThemeName config (Js.of_Z hour) = darkTheme config)
      /\ (hour = 6%Z -> timeBasedThemeName config (Js.of_Z hour) = lightTheme config)
      /\ (hour = 17%Z -> timeBasedThemeName config (Js.of_Z hour) = lightTheme config)
      /\ (hour = 18%Z -> timeBasedThemeName config (Js.of_Z hour) = darkTheme config))
  /\ applyTimeBasedTheme getCurrentTheme config (Js.of_Z hour) st
     = applyThemeByName getCurrentTheme
         (if decide (light <= hour < dark)%Z
          then lightTheme config else darkTheme config) st
  /\ (forall theme,
        (light <= hour < dark)%Z ->
        lightTheme config <> "" ->
        List.find (fun t => String.eqb (theme_name t) (lightTheme config))
          (savedThemes st) = Some theme ->
        applyTimeBasedTheme getCurrentTheme config (Js.of_Z hour) st
        = applyTheme getCurrentTheme theme st)
  /\ (forall theme,
        ~ (light <= hour < dark)%Z ->
        darkTheme config <> "" ->
        List.find (fun t => String.eqb (theme_name t) (darkTheme config))
          (savedThemes st) = Some theme ->
        applyTimeBasedTheme getCurrentTheme config (Js.of_Z hour) st
        = applyTheme getCurrentTheme theme st).
Proof.
  intros Hlight Hdark Hl Hd Hh.
  destruct (hour_comparisons hour light Hh Hl) as [Hge _].
  destruct (hour_comparisons hour dark Hh Hd) as [_ Hlt].
  assert (Hrule : shouldUseLightTheme config (Js.of_Z hour) = true
                  <-> (light <= hour < dark)%Z).
  { unfold shouldUseLightTheme. rewrite Hlight, Hdark, Hge, Hlt.
    rewrite andb_true_iff, Z.leb_le, Z.ltb_lt. done. }
  assert (Hin : (light <= hour < dark)%Z ->
                timeBasedThemeName config (Js.of_Z hour) = lightTheme config).
  { intros Hint. unfold timeBasedThemeName.
    by rewrite (proj2 Hrule Hint). }
  assert (Hout : ~ (light <= hour < dark)%Z ->
                 timeBasedThemeName config (Js.of_Z hour) = darkTheme config).
  { intros Hint. unfold timeBasedThemeName.
    destruct (shouldUseLightTheme config (Js.of_Z hour)) eqn:Hrun; [|done].
    destruct Hint. by apply Hrule. }
  assert (Happlied : forall name theme,
             timeBasedThemeName config (Js.of_Z hour) = name ->
             name <> "" ->
             List.find (fun t => String.eqb (theme_name t) name) (savedThemes st)
             = Some theme ->
             applyTimeBasedTheme getCurrentTheme config (Js.of_Z hour) st
             = applyTheme getCurrentTheme theme st).
  { intros name theme Hname Hne Hfind.
    unfold applyTimeBasedTheme, applyThemeByName. rewrite Hname.
    destruct (String.eqb_spec name "") as [?|_]; [done|].
    by rewrite Hfind. }
  split; [exact Hrule|]. split; [exact Hin|]. split; [exact Hout|].
  split; [intros Hempty; apply Hout; lia|].
  split.
  { intros -> ->.
    repeat split; intros ->; first [apply Hin; lia | apply Hout; lia]. }
  split.
  { unfold applyTimeBasedTheme.
    destruct (decide (light <= hour < dark)%Z) as [Hint|Hint].
    - by rewrite (Hin Hint).
    - by rewrite (Hout Hint). }
  split.
  - intros theme Hint. apply Happlied. by apply Hin.
  - intros theme Hint. apply Happlied. by apply Hout.
Qed.

Lemma time_rule_half_open_witness :
  applyTimeBasedTheme Sample.readBack Sample.schedule (Js.of_Z 17)
    SampleSystem.light_base
  = applyTheme Sample.readBack SampleSystem.solarDay SampleSystem.light_base
  /\ applyTimeBasedTheme Sample.readBack Sample.schedule (Js.of_Z 18)
       SampleSystem.light_base
     = applyTheme Sample.readBack Sample.neonGlow SampleSystem.light_base.
Proof.
  assert (Hlight : lightTheme Sample.schedule <> "") by discriminate.
  assert (Hdark : darkTheme Sample.schedule <> "") by discriminate.
  split.
  - apply (proj1 (proj2 (proj2 (proj2 (proj2 (proj2 (proj2
             (time_rule_half_open Sample.readBack Sample.schedule 6 18 17
                SampleSystem.light_base
                eq_refl eq_refl ltac:(lia) ltac:(lia) ltac:(lia))))))))
             SampleSystem.solarDay);
      [lia | exact Hlight | reflexivity].
  - apply (proj2 (proj2 (proj2 (proj2 (proj2 (proj2 (proj2
             (time_rule_half_open Sample.readBack Sample.schedule 6 18 18
                SampleSystem.light_base
                eq_refl eq_refl ltac:(lia) ltac:(lia) ltac:(lia))))))))
             Sample.neonGlow);
      [lia | exact Hdark | reflexivity].
Defined.

(** ** Export to Alacritty, then import *)

(** The exported text is a YAML comment line followed by the colour
    table: it starts with a hash sign, which no JSON text does. *)
Lemma exportToAlacritty_starts_with_hash theme :
  exists rest, exportToAlacritty theme = "# " +:+ rest.
Proof.
  eexists. unfold exportToAlacritty, lines.
  cbn [String.concat String.append]. reflexivity.
Qed.

Section Codec.
Variable JSON_parse : string -> string + Json.

(** C3, on the code. The YAML dialect is written and never read. The
    text [exportToAlacritty] produces depends on nothing but the name, the
    description and the eighteen terminal colours of the document. It is
    offered under the extension [yml]; [importTheme] has no branch for
    that extension and fails with "Unsupported file format: .yml". Under
    the extensions it does accept, the text goes to [JSON.parse], and
    where the parser rejects it the import fails as well: no partial
    document comes back. *)
Theorem alacritty_export_not_importable created modified theme filePath :
  format_extension "alacritty" = Some "yml"
  /\ (toLowerCase (path_extname filePath) = ".yml" ->
      importTheme JSON_parse created modified (exportToAlacritty theme) filePath
      = inl "Unsupported file format: .yml")
  /\ (forall error,
        JSON_parse (exportToAlacritty theme) = inl error ->
        exists message,
          importTheme JSON_parse created modified (exportToAlacritty theme)
            filePath = inl message)
  /\ (forall other,
        theme_name other = theme_name theme ->
        theme_description other = theme_description theme ->
        Forall (fun field =>
                  field (theme_colors other) = field (theme_colors theme))
          alacrittyColourFields ->
        exportToAlacritty other = exportToAlacritty theme).
Proof.
  split; [reflexivity|]. split; [|split].
  - intros Hext. unfold importTheme. by rewrite Hext.
  - intros error Hparse. unfold importTheme, importFromTermiStyle, importFromJSON.
    rewrite Hparse.
    destruct (_ || _); [by eexists|].
    destruct (String.eqb _ ".json"); by eexists.
  - intros other Hname Hdescription Hfields.
    unfold alacrittyColourFields in Hfields.
    repeat match goal with
           | H : Forall _ (_ :: _) |- _ =>
               let Hfield := fresh "Hfield" in
               apply Forall_cons in H as [Hfield H]
           end.
    unfold exportToAlacritty. cbv zeta.
    rewrite Hname, Hdescription.
    repeat match goal with
           | H : _ (theme_colors other) = _ |- _ => rewrite H; clear H
           end.
    reflexivity.
Qed.

End Codec.

Lemma alacritty_export_not_importable_witness :
  importTheme Sample.rejecting_parse "T0" "T1"
    (exportToAlacritty Sample.neonGlow) "/themes/neon-glow.yml"
  = inl "Unsupported file format: .yml".
Proof.
  apply (proj1 (proj2 (alacritty_export_not_importable Sample.rejecting_parse
                         "T0" "T1" Sample.neonGlow "/themes/neon-glow.yml"))).
  reflexivity.
Defined.

(** C3 as stated fails on Neon Glow: decoding the exported YAML text
    returns no document at all, neither under the extension it is
    exported with nor, the parser rejecting it, under [.json]. *)
Lemma alacritty_round_trip_returns_no_document :
  importTheme Sample.rejecting_parse "T0" "T1"
    (exportToAlacritty Sample.neonGlow) "/themes/neon-glow.yml"
  = inl "Unsupported file format: .yml"
  /\ importTheme Sample.rejecting_parse "T0" "T1"
       (exportToAlacritty Sample.neonGlow) "/themes/neon-glow.json"
     = inl "Invalid JSON file: SyntaxError: Unexpected token".
Proof. split; reflexivity. Qed.


(** ** The theme store: delete, lookup, uniqueness *)

Lemma with_savedThemes_id st : with_savedThemes (savedThemes st) st = st.
Proof. by destruct st. Qed.

Lemma find_by_name_list_find name (themes : list TerminalTheme) :
  List.find (fun t => String.eqb (theme_name t) name) themes
  = snd <$> list_find (fun t => theme_name t = name) themes.
Proof.
  induction themes as [|t themes IH]; [done|].
  cbn [List.find list_find].
  destruct (String.eqb_spec (theme_name t) name) as [Heq|Hne].
  - by rewrite decide_True.
  - rewrite decide_False by done. rewrite IH.
    by destruct (list_find _ themes) as [[i x]|].
Qed.

Lemma filter_other_names_id name (themes : list TerminalTheme) :
  Forall (fun t => theme_name t <> name) themes ->
  filter (fun t => theme_name t <> name) themes = themes.
Proof.
  induction 1 as [|t themes Ht _ IH]; [done|].
  by rewrite filter_cons_True, IH.
Qed.

(** X1. [deleteTheme] removes every document of the given name and nothing
    else: the other documents stay, in their order; the name is no longer
    found; where no document has the name, the state is left as it is. *)
Theorem deleteTheme_removes_name themeName st :
  (forall t, t ∈ savedThemes (deleteTheme themeName st)
             <-> t ∈ savedThemes st /\ theme_name t <> themeName)
  /\ savedThemes (deleteTheme themeName st) `sublist_of` savedThemes st
  /\ findIndex themeName (savedThemes (deleteTheme themeName st)) = None
  /\ count_named themeName (savedThemes (deleteTheme themeName st)) = 0
  /\ configuration (deleteTheme themeName st) = configuration st
  /\ backups (deleteTheme themeName st) = backups st
  /\ (findIndex themeName (savedThemes st) = None ->
      deleteTheme themeName st = st).
Proof.
  assert (Hgone : findIndex themeName (savedThemes (deleteTheme themeName st))
                  = None).
  { apply findIndex_None. unfold deleteTheme; cbn [savedThemes with_savedThemes].
    apply Forall_forall. by intros t [Ht _]%list_elem_of_filter. }
  split.
  { intros t. unfold deleteTheme; cbn [savedThemes with_savedThemes].
    rewrite list_elem_of_filter. tauto. }
  split; [apply sublist_filter|].
  split; [exact Hgone|].
  split; [by apply count_named_absent|].
  split; [done|]. split; [done|].
  intros Hnone. unfold deleteTheme.
  rewrite filter_other_names_id by (by apply findIndex_None).
  apply with_savedThemes_id.
Qed.

Lemma deleteTheme_removes_name_witness :
  deleteTheme "Solar Day" Sample.installed = Sample.installed.
Proof.
  apply (proj2 (proj2 (proj2 (proj2 (proj2 (proj2
           (deleteTheme_removes_name "Solar Day" Sample.installed))))))).
  reflexivity.
Defined.

(** X2. Saving a document under a fresh name and deleting that name again
    gives back the saved list; saving never makes two documents share a
    name that was unique before, and it adds at most one entry. *)
Theorem saveTheme_keeps_names_unique theme st :
  (NoDup (theme_name <$> savedThemes st) ->
   NoDup (theme_name <$> savedThemes (saveTheme theme st)))
  /\ (findIndex (theme_name theme) (savedThemes st) = None ->
      length (savedThemes (saveTheme theme st)) = S (length (savedThemes st))
      /\ savedThemes (deleteTheme (theme_name theme) (saveTheme theme st))
         = savedThemes st)
  /\ (forall i, findIndex (theme_name theme) (savedThemes st) = Some i ->
      length (savedThemes (saveTheme theme st)) = length (savedThemes st)
      /\ theme_name <$> savedThemes (saveTheme theme st)
         = theme_name <$> savedThemes st).
Proof.
  assert (Hover : forall i,
             findIndex (theme_name theme) (savedThemes st) = Some i ->
             length (savedThemes (saveTheme theme st)) = length (savedThemes st)
             /\ theme_name <$> savedThemes (saveTheme theme st)
                = theme_name <$> savedThemes st).
  { intros i Hi. rewrite (saveTheme_overwrite theme st i Hi).
    split; [apply length_insert|].
    rewrite list_fmap_insert. apply list_insert_id.
    unfold findIndex in Hi. apply fmap_Some in Hi as ([j old] & Hfind & ->).
    apply list_find_Some in Hfind as (Hlookup & Hname & _).
    cbn [fst]. rewrite list_lookup_fmap, Hlookup.
    cbn [fmap option_fmap option_map]. by rewrite Hname. }
  assert (Hfresh : findIndex (theme_name theme) (savedThemes st) = None ->
                   savedThemes (saveTheme theme st)
                   = (savedThemes st
                      ++ [set_created (clock st (S (clock_reads st)))
                            (set_modified (clock st (clock_reads st)) theme)])%list).
  { intros Hnone. apply (saveTheme_insert theme st Hnone). }
  split; [|split; [|exact Hover]].
  - intros Hnodup.
    destruct (findIndex (theme_name theme) (savedThemes st)) as [i|] eqn:Hfind.
    + by rewrite (proj2 (Hover i eq_refl)).
    + rewrite (Hfresh eq_refl), fmap_app. apply NoDup_app.
      split; [done|]. split; [|apply NoDup_singleton].
      intros name Hin Hsingle. apply list_elem_of_singleton in Hsingle.
      cbn in Hsingle. subst name.
      apply list_elem_of_fmap in Hin as (t & Hname & Ht).
      apply findIndex_None in Hfind.
      rewrite Forall_forall in Hfind. by apply (Hfind t Ht).
  - intros Hnone. rewrite (Hfresh Hnone). split.
    + rewrite length_app. cbn [length]. lia.
    + unfold deleteTheme; cbn [savedThemes with_savedThemes].
      rewrite (Hfresh Hnone), filter_app.
      rewrite filter_other_names_id by (by apply findIndex_None).
      rewrite filter_cons_False, filter_nil by (intros H; by apply H).
      apply app_nil_r.
Qed.

Lemma saveTheme_keeps_names_unique_witness :
  savedThemes (deleteTheme "Neon Glow" (saveTheme Sample.neonGlow Sample.fresh))
  = [].
Proof.
  exact (proj2 (proj1 (proj2 (saveTheme_keeps_names_unique Sample.neonGlow
                                Sample.fresh)) eq_refl)).
Defined.

(** X3. Whatever the store held, the saved copy is the one a lookup by name
    returns, so it is what a later switch to that name applies. *)
Theorem saved_theme_is_found theme st :
  exists stored,
    List.find (fun t => String.eqb (theme_name t) (theme_name theme))
      (savedThemes (saveTheme theme st)) = Some stored
    /\ theme_modified stored = clock st (clock_reads st)
    /\ set_created (theme_created theme) stored
       = set_modified (clock st (clock_reads st)) theme
    /\ (forall getCurrentTheme,
          theme_name theme <> "" ->
          applyThemeByName getCurrentTheme (theme_name theme) (saveTheme theme st)
          = applyTheme getCurrentTheme stored (saveTheme theme st)).
Proof.
  assert (Hfound : exists stored,
             list_find (fun t => theme_name t = theme_name theme)
               (savedThemes (saveTheme theme st))
             = Some (default (length (savedThemes st))
                       (findIndex (theme_name theme) (savedThemes st)), stored)
             /\ theme_modified stored = clock st (clock_reads st)
             /\ set_created (theme_created theme) stored
                = set_modified (clock st (clock_reads st)) theme).
  { destruct (findIndex (theme_name theme) (savedThemes st)) as [i|] eqn:Hfind.
    - exists (set_modified (clock st (clock_reads st)) theme).
      rewrite (saveTheme_overwrite theme st i Hfind). split; [|done].
      unfold findIndex in Hfind.
      apply fmap_Some in Hfind as ([j old] & Hfind & ->).
      apply list_find_Some in Hfind as (Hlookup & Hname & Hfirst).
      cbn [fst default]. apply list_find_Some. split; [|split; [done|]].
      + apply list_lookup_insert_eq. by eapply lookup_lt_Some.
      + intros k y Hk Hlt. unfold id in Hlt.
        rewrite list_lookup_insert_ne in Hk by lia.
        by eapply Hfirst.
    - exists (set_created (clock st (S (clock_reads st)))
                (set_modified (clock st (clock_reads st)) theme)).
      rewrite (proj1 (saveTheme_insert theme st Hfind)). split; [|done].
      cbn [default]. unfold findIndex in Hfind. apply fmap_None in Hfind.
      rewrite list_find_app_r by done.
      cbn [list_find]. by rewrite decide_True. }
  destruct Hfound as (stored & Hfind & Hmodified & Hsame).
  assert (Hlookup : List.find (fun t => String.eqb (theme_name t) (theme_name theme))
                      (savedThemes (saveTheme theme st)) = Some stored).
  { by rewrite find_by_name_list_find, Hfind. }
  exists stored. split; [exact Hlookup|]. split; [exact Hmodified|].
  split; [exact Hsame|].
  intros getCurrentTheme Hname. unfold applyThemeByName.
  destruct (String.eqb_spec (theme_name theme) "") as [Hempty|_]; [done|].
  by rewrite Hlookup.
Qed.

Lemma saved_theme_is_found_witness :
  applyThemeByName Sample.readBack "Neon Glow"
    (saveTheme Sample.neonGlow_v2 Sample.installed)
  = applyTheme Sample.readBack (set_modified "T0" Sample.neonGlow_v2)
      (saveTheme Sample.neonGlow_v2 Sample.installed).
Proof.
  destruct (saved_theme_is_found Sample.neonGlow_v2 Sample.installed)
    as (stored & Hfind & _ & _ & Happly).
  vm_compute in Hfind. injection Hfind as <-.
  apply Happly. discriminate.
Defined.

(** ** Restoring a backup *)



Lemma restoreSettings_frame settings st :
  savedThemes (restoreSettings settings st) = savedThemes st
  /\ backups (restoreSettings settings st) = backups st
  /\ currentTheme (restoreSettings settings st) = currentTheme st.
Proof.
  unfold restoreSettings.
  apply (map_fold_weak_ind
           (fun r m => savedThemes r = savedThemes st
                       /\ backups r = backups st
                       /\ currentTheme r = currentTheme st)); [done|].
  by intros i x m r _ IH.
Qed.

Lemma object_lookup_absent {V} (entries : list (string * V)) key :
  key ∉ entries.*1 -> Js.object entries !! key = None.
Proof.
  intros Hkey. apply not_elem_of_dom. rewrite dom_object.
  by rewrite elem_of_list_to_set.
Qed.



Section Restore.
Variable getCurrentTheme :
  gmap string Setting -> string -> string -> TerminalTheme.




(** The switch is tested for truth: a stored [false], [0], empty string
    or [null] turns the backup off, and the apply leaves the ring as it
    is. *)
Lemma applyTheme_without_backup theme st :
  get_bool_default_true "vibestudio.backup.enabled" st = false ->
  backups (applyTheme getCurrentTheme theme st) = backups st.
Proof.
  intros Hdisabled.
  rewrite (proj1 (applyTheme_backups getCurrentTheme theme st)).
  unfold backup_step. by rewrite Hdisabled.
Qed.

Lemma backup_disabled_by_null st :
  configuration st !! "vibestudio.backup.enabled" = Some (setting_other "null") ->
  get_bool_default_true "vibestudio.backup.enabled" st = false.
Proof. intros Hnull. unfold get_bool_default_true. by rewrite Hnull. Qed.


End Restore.



Section RestoreLimits.
Variable getCurrentTheme :
  gmap string Setting -> string -> string -> TerminalTheme.




End RestoreLimits.


(** X6. An unknown timestamp is an error, and so is any timestamp while the
    ring is empty; a known one never is. *)
Theorem restoreBackup_not_found timestamp st :
  (Forall (fun b => backup_timestamp b <> timestamp) (backups st) ->
   restoreBackup timestamp st = inl "Backup not found")
  /\ (forall b, b ∈ backups st -> backup_timestamp b = timestamp ->
      exists restored, restoreBackup timestamp st = inr restored
                       /\ backups restored = backups st).
Proof.
  unfold restoreBackup. split.
  - intros Hall.
    destruct (List.find _ (backups st)) as [b|] eqn:Hfind; [|done].
    apply find_some in Hfind as [Hin Heq].
    apply String.eqb_eq in Heq.
    rewrite Forall_forall in Hall.
    destruct (Hall b); [by apply list_elem_of_In | done].
  - intros b Hin Hts.
    destruct (List.find _ (backups st)) as [b'|] eqn:Hfind.
    + eexists. split; [done|]. apply restoreSettings_frame.
    + apply list_elem_of_In in Hin.
      pose proof (find_none _ _ Hfind b Hin) as Hno. cbn in Hno.
      rewrite Hts, String.eqb_refl in Hno. done.
Qed.

Lemma restoreBackup_not_found_witness :
  restoreBackup "2024-01-01T00:00:00.000Z" Sample.fresh
  = inl "Backup not found".
Proof.
  apply (proj1 (restoreBackup_not_found "2024-01-01T00:00:00.000Z" Sample.fresh)).
  constructor.
Defined.

(** ** Resetting *)

Section ResetFacts.
Variable getCurrentTheme :
  gmap string Setting -> string -> string -> TerminalTheme.




End ResetFacts.



(** * The auto switcher's timer and listener *)

Lemma held_size (field : option nat) : size (held field) <= 1.
Proof.
  destruct field as [handle|]; cbn [held].
  - rewrite size_singleton. lia.
  - rewrite size_empty. lia.
Qed.

Lemma no_dangling_new (config : AutoSwitchConfig) :
  no_dangling (new_switcher config).
Proof. split; reflexivity. Qed.

Lemma no_dangling_stopTime (sw : Switcher) :
  no_dangling sw ->
  no_dangling (stopTimeBasedSwitching sw)
  /\ switcher_timer (stopTimeBasedSwitching sw) = None.
Proof.
  intros [Hi Hl]. unfold stopTimeBasedSwitching, no_dangling.
  destruct (switcher_timer sw) as [handle|] eqn:Ht; cbn.
  - rewrite Hi. cbn [held]. rewrite difference_diag_L. auto.
  - rewrite Ht. auto.
Qed.

Lemma no_dangling_stopSystem (sw : Switcher) :
  no_dangling sw ->
  no_dangling (stopSystemBasedSwitching sw)
  /\ switcher_systemThemeWatcher (stopSystemBasedSwitching sw) = None.
Proof.
  intros [Hi Hl]. unfold stopSystemBasedSwitching, no_dangling.
  destruct (switcher_systemThemeWatcher sw) as [handle|] eqn:Hw; cbn.
  - rewrite Hl. cbn [held]. rewrite difference_diag_L. auto.
  - rewrite Hw. auto.
Qed.

Lemma no_dangling_startTime (sw : Switcher) :
  no_dangling sw -> no_dangling (startTimeBasedSwitching sw).
Proof.
  intros H. destruct (no_dangling_stopTime sw H) as [[Hi Hl] Ht].
  unfold startTimeBasedSwitching, no_dangling. cbn.
  rewrite Hi, Ht. cbn [held]. rewrite (left_id_L ∅ (∪)). auto.
Qed.

Lemma no_dangling_startSystem (sw : Switcher) :
  no_dangling sw -> no_dangling (startSystemBasedSwitching sw).
Proof.
  intros H. destruct (no_dangling_stopSystem sw H) as [[Hi Hl] Hw].
  unfold startSystemBasedSwitching, no_dangling. cbn.
  rewrite Hl, Hw. cbn [held]. rewrite (left_id_L ∅ (∪)). auto.
Qed.

Lemma no_dangling_enable (sw : Switcher) :
  no_dangling sw -> no_dangling (enable sw).
Proof.
  intros H. unfold enable.
  destruct (mode (switcher_config sw)).
  - apply no_dangling_startTime in H. exact H.
  - apply no_dangling_startSystem in H. exact H.
Qed.

Lemma no_dangling_disable (sw : Switcher) :
  no_dangling sw ->
  no_dangling (disable sw)
  /\ switcher_timer (disable sw) = None
  /\ switcher_systemThemeWatcher (disable sw) = None.
Proof.
  intros H. destruct (no_dangling_stopTime sw H) as [H1 Ht].
  destruct (no_dangling_stopSystem _ H1) as [H2 Hw].
  unfold disable. cbn. split; [exact H2|]. split; [|exact Hw].
  unfold stopSystemBasedSwitching.
  destruct (switcher_systemThemeWatcher (stopTimeBasedSwitching sw)); exact Ht.
Qed.

Lemma no_dangling_step (sw : Switcher) (step : SwitcherStep) :
  no_dangling sw -> no_dangling (switcher_step sw step).
Proof.
  intros H. destruct step; cbn [switcher_step].
  - unfold initialize. destruct (enabled (switcher_config sw));
      [apply no_dangling_enable|]; exact H.
  - apply no_dangling_enable, H.
  - apply no_dangling_disable, H.
  - unfold onConfigurationChanged. destruct (enabled loaded).
    + apply no_dangling_enable, no_dangling_disable. exact H.
    + exact H.
  - unfold checkSystemTheme.
    destruct (enabled (switcher_config sw)), (mode (switcher_config sw)); exact H.
  - unfold interval_fires. destruct (decide _); exact H.
  - unfold colorTheme_changes. destruct (decide _); exact H.
Qed.

(** X9. Whatever calls are made on a new auto switcher ([initialize],
    [enable], [disable], [onConfigurationChanged], [checkSystemTheme]) and
    whatever events the host delivers in between, the intervals and
    listeners left with the host are exactly the ones the switcher's
    [timer] and [systemThemeWatcher] fields hold: at most one of each, and
    none is leaked. *)
Theorem switcher_no_dangling
  (config : AutoSwitchConfig) (steps : list SwitcherStep) :
  let sw := fold_left switcher_step steps (new_switcher config) in
  no_dangling sw /\ size (intervals sw) <= 1 /\ size (listeners sw) <= 1.
Proof.
  cbn zeta.
  assert (H : no_dangling (fold_left switcher_step steps (new_switcher config))).
  { generalize (no_dangling_new config).
    generalize (new_switcher config) as sw.
    induction steps as [|step steps IH]; intros sw H; cbn [fold_left].
    - exact H.
    - apply IH, no_dangling_step, H. }
  split; [exact H|]. destruct H as [-> ->].
  split; apply held_size.
Qed.

(** X10. After [disable] (and so after [dispose]) nothing the host
    delivers starts a switch any more: no interval of the switcher is left
    to fire and no listener is left to react to a change of the base
    theme. *)
Theorem disable_silences_host (sw : Switcher) (handle : nat) :
  no_dangling sw ->
  isEnabled (disable sw) = false
  /\ interval_fires handle (disable sw) = disable sw
  /\ colorTheme_changes (disable sw) = disable sw
  /\ checkSystemTheme (disable sw) = disable sw.
Proof.
  intros H. destruct (no_dangling_disable sw H) as [[Hi Hl] [Ht Hw]].
  split; [reflexivity|].
  rewrite Ht in Hi. rewrite Hw in Hl. cbn [held] in Hi, Hl.
  split; [|split].
  - unfold interval_fires. rewrite Hi.
    destruct (decide (handle ∈ (∅ : gset nat))) as [Hin|_]; [|reflexivity].
    exfalso. revert Hin. apply not_elem_of_empty.
  - unfold colorTheme_changes. rewrite Hl.
    destruct (decide ((∅ : gset nat) = ∅)) as [_|Hne]; [reflexivity|].
    exfalso. apply Hne. reflexivity.
  - reflexivity.
Qed.

(** X11. When the reloaded configuration has [enabled = false],
    [onConfigurationChanged] stops nothing: a running interval stays with
    the host and still starts [applyTimeBasedTheme] when it fires,
    although [isEnabled] now answers false. *)
Theorem onConfigurationChanged_disabled_keeps_timer
  (loaded : AutoSwitchConfig) (sw : Switcher) (handle : nat) :
  enabled loaded = false ->
  switcher_timer sw = Some handle ->
  no_dangling sw ->
  let sw' := onConfigurationChanged loaded sw in
  isEnabled sw' = false
  /\ switcher_timer sw' = Some handle
  /\ intervals sw' = {[handle]}
  /\ started (interval_fires handle sw')
     = (started sw ++ [task_applyTimeBasedTheme])%list.
Proof.
  intros He Ht [Hi Hl]. cbn zeta. unfold onConfigurationChanged. rewrite He.
  rewrite Ht in Hi. cbn [held] in Hi.
  split; [exact He|]. split; [exact Ht|]. split; [exact Hi|].
  unfold interval_fires. cbn [intervals]. rewrite Hi.
  destruct (decide (handle ∈ ({[handle]} : gset nat))) as [_|Hn].
  - reflexivity.
  - exfalso. apply Hn. apply elem_of_singleton. reflexivity.
Qed.

(** X12. When the reloaded configuration has [enabled = true],
    [onConfigurationChanged] restarts the switcher in the reloaded mode
    only: exactly one source is active afterwards (the interval in time
    mode, the listener in system mode), and the calls started are the
    save of [enabled = false], one immediate apply of that mode, and the
    save of [enabled = true]. *)
Theorem onConfigurationChanged_enabled_restarts
  (loaded : AutoSwitchConfig) (sw : Switcher) :
  enabled loaded = true ->
  no_dangling sw ->
  let sw' := onConfigurationChanged loaded sw in
  isEnabled sw' = true
  /\ match mode loaded with
     | mode_time =>
         intervals sw' = {[next_handle sw]} /\ listeners sw' = ∅
         /\ started sw' = (started sw ++ [task_saveEnabled false;
              task_applyTimeBasedTheme; task_saveEnabled true])%list
     | mode_system =>
         intervals sw' = ∅ /\ listeners sw' = {[next_handle sw]}
         /\ started sw' = (started sw ++ [task_saveEnabled false;
              task_applySystemTheme; task_saveEnabled true])%list
     end.
Proof.
  intros He H. cbn zeta. unfold onConfigurationChanged. rewrite He.
  set (sw0 := {| switcher_config := loaded; switcher_timer := switcher_timer sw;
                 switcher_systemThemeWatcher := switcher_systemThemeWatcher sw;
                 intervals := intervals sw; listeners := listeners sw;
                 next_handle := next_handle sw; started := started sw |}).
  assert (H0 : no_dangling sw0) by exact H.
  destruct (no_dangling_disable sw0 H0) as [[Hi Hl] [Ht Hw]].
  rewrite Ht in Hi. rewrite Hw in Hl. cbn [held] in Hi, Hl.
  assert (Hn : next_handle (disable sw0) = next_handle sw).
  { unfold disable, stopSystemBasedSwitching, stopTimeBasedSwitching. cbn.
    destruct (switcher_timer sw); cbn; destruct (switcher_systemThemeWatcher sw);
      reflexivity. }
  assert (Hs : started (disable sw0) = (started sw ++ [task_saveEnabled false])%list).
  { unfold disable, stopSystemBasedSwitching, stopTimeBasedSwitching. cbn.
    destruct (switcher_timer sw); cbn; destruct (switcher_systemThemeWatcher sw);
      reflexivity. }
  assert (Hm : mode (switcher_config (disable sw0)) = mode loaded).
  { unfold disable, stopSystemBasedSwitching, stopTimeBasedSwitching. cbn.
    destruct (switcher_timer sw); cbn; destruct (switcher_systemThemeWatcher sw);
      reflexivity. }
  split; [reflexivity|].
  set (sw1 := disable sw0) in *. clearbody sw1.
  unfold enable. rewrite Hm. destruct (mode loaded).
  - unfold startTimeBasedSwitching, stopTimeBasedSwitching. rewrite Ht. cbn.
    rewrite Hi, Hl, Hn, Hs, (left_id_L ∅ (∪)), <- !app_assoc. auto.
  - unfold startSystemBasedSwitching, stopSystemBasedSwitching. rewrite Hw. cbn.
    rewrite Hi, Hl, Hn, Hs, (left_id_L ∅ (∪)), <- !app_assoc. auto.
Qed.

(** X13. [enable] stops only the source of its own mode: when the mode
    was changed from system to time without a [disable] in between, the
    listener of the system mode stays registered next to the new interval,
    and a change of the base theme still starts [applySystemTheme]. *)
Theorem enable_keeps_other_source (sw : Switcher) (watcher : nat) :
  mode (switcher_config sw) = mode_time ->
  switcher_systemThemeWatcher sw = Some watcher ->
  no_dangling sw ->
  let sw' := enable sw in
  switcher_timer sw' = Some (next_handle sw)
  /\ intervals sw' = {[next_handle sw]}
  /\ listeners sw' = {[watcher]}
  /\ started (colorTheme_changes sw')
     = (started sw' ++ [task_applySystemTheme])%list.
Proof.
  intros Hm Hw H. cbn zeta.
  destruct (no_dangling_stopTime sw H) as [[Hi Hl] Ht].
  assert (Hn : next_handle (stopTimeBasedSwitching sw) = next_handle sw).
  { unfold stopTimeBasedSwitching. destruct (switcher_timer sw); reflexivity. }
  assert (Hw' : switcher_systemThemeWatcher (stopTimeBasedSwitching sw) = Some watcher).
  { unfold stopTimeBasedSwitching. destruct (switcher_timer sw); exact Hw. }
  assert (Hl' : listeners (enable sw) = {[watcher]}).
  { unfold enable. rewrite Hm. unfold startTimeBasedSwitching. cbn.
    rewrite Hl, Hw'. reflexivity. }
  unfold enable in *. rewrite Hm in *. unfold startTimeBasedSwitching in *. cbn in *.
  rewrite Hn, Hi, Ht. cbn [held]. rewrite (left_id_L ∅ (∪)).
  repeat split; [exact Hl'|].
  unfold colorTheme_changes. cbn. rewrite Hl'.
  destruct (decide (({[watcher]} : gset nat) = ∅)) as [He|_]; [|reflexivity].
  exfalso. revert He. apply non_empty_singleton_L.
Qed.

Lemma disable_silences_host_witness :
  interval_fires 0 (disable SampleSwitcher.running)
  = disable SampleSwitcher.running.
Proof.
  assert (H : no_dangling SampleSwitcher.running) by (split; reflexivity).
  exact (proj1 (proj2 (disable_silences_host SampleSwitcher.running 0 H))).
Defined.

Lemma onConfigurationChanged_disabled_keeps_timer_witness :
  started (interval_fires 0
    (onConfigurationChanged SampleSwitcher.switched_off SampleSwitcher.running))
  = [task_applyTimeBasedTheme; task_saveEnabled true; task_applyTimeBasedTheme].
Proof.
  assert (H : no_dangling SampleSwitcher.running) by (split; reflexivity).
  exact (proj2 (proj2 (proj2
    (onConfigurationChanged_disabled_keeps_timer SampleSwitcher.switched_off
       SampleSwitcher.running 0 eq_refl eq_refl H)))).
Defined.

Lemma onConfigurationChanged_enabled_restarts_witness :
  intervals (onConfigurationChanged SampleSwitcher.system_schedule
               SampleSwitcher.running) = ∅
  /\ listeners (onConfigurationChanged SampleSwitcher.system_schedule
                  SampleSwitcher.running) = {[1]}.
Proof.
  assert (H : no_dangling SampleSwitcher.running) by (split; reflexivity).
  destruct (proj2 (onConfigurationChanged_enabled_restarts
    SampleSwitcher.system_schedule SampleSwitcher.running eq_refl H))
    as (Hi & Hl & _).
  split; [exact Hi | exact Hl].
Defined.

Lemma enable_keeps_other_source_witness :
  intervals (enable SampleSwitcher.retimed) = {[1]}
  /\ listeners (enable SampleSwitcher.retimed) = {[0]}.
Proof.
  assert (H : no_dangling SampleSwitcher.retimed) by (split; reflexivity).
  destruct (enable_keeps_other_source SampleSwitcher.retimed 0 eq_refl eq_refl H)
    as (_ & Hi & Hl & _).
  split; [exact Hi | exact Hl].
Defined.

(** * The system switch and the saved themes *)

Lemma find_deleted_name name (themes : list TerminalTheme) :
  List.find (fun t => String.eqb (theme_name t) name)
    (filter (fun t => theme_name t <> name) themes) = None.
Proof.
  induction themes as [|t themes IH]; [done|].
  destruct (decide (theme_name t = name)) as [Heq|Hne].
  - by rewrite filter_cons_False by (intros H; by apply H).
  - rewrite filter_cons_True by done. cbn [List.find].
    by destruct (String.eqb_spec (theme_name t) name).
Qed.

Lemma existsb_deleted_name name (themes : list TerminalTheme) :
  existsb (fun t => String.eqb (theme_name t) name)
    (filter (fun t => theme_name t <> name) themes) = false.
Proof.
  induction themes as [|t themes IH]; [done|].
  destruct (decide (theme_name t = name)) as [Heq|Hne].
  - by rewrite filter_cons_False by (intros H; by apply H).
  - rewrite filter_cons_True by done. cbn [existsb]. rewrite IH.
    by destruct (String.eqb_spec (theme_name t) name).
Qed.

Section SystemSwitchFacts.
Variable getCurrentTheme :
  gmap string Setting -> string -> string -> TerminalTheme.

Lemma applyTheme_colorTheme_unset theme st :
  configuration (applyTheme getCurrentTheme theme st) !! "workbench.colorTheme"
  = None.
Proof.
  rewrite applyTheme_discrete_lookup by done.
  unfold applyTheme_updates. cbn [app take fold_left].
  rewrite take_0. cbn [fold_left].
  rewrite !lookup_store_ne by done.
  unfold store; cbn [fst snd]. apply lookup_delete_eq.
Qed.

(** X14. The system switch reads the base theme that every apply unsets.
    Under a base theme whose name holds "light" or "day" it applies the
    configured light theme, and the next run on the result chooses the
    configured dark theme: once a theme has been applied, the light
    branch is never taken again until the base theme is set from outside. *)
Theorem system_switch_turns_dark config st base light :
  configuration st !! "workbench.colorTheme" = Some (setting_string base) ->
  isLightTheme base = true ->
  lightTheme config <> "" ->
  List.find (fun t => String.eqb (theme_name t) (lightTheme config)) (savedThemes st)
  = Some light ->
  let st1 := applySystemTheme getCurrentTheme config st in
  st1 = applyTheme getCurrentTheme light st
  /\ applySystemTheme getCurrentTheme config st1
     = applyThemeByName getCurrentTheme (darkTheme config) st1
  /\ (forall theme st0,
        applySystemTheme getCurrentTheme config
          (applyTheme getCurrentTheme theme st0)
        = applyThemeByName getCurrentTheme (darkTheme config)
            (applyTheme getCurrentTheme theme st0)).
Proof.
  intros Hbase Hlight Hname Hfind. cbn zeta.
  assert (Hafter : forall theme st0,
             applySystemTheme getCurrentTheme config
               (applyTheme getCurrentTheme theme st0)
             = applyThemeByName getCurrentTheme (darkTheme config)
                 (applyTheme getCurrentTheme theme st0)).
  { intros theme st0. unfold applySystemTheme, get_string.
    by rewrite applyTheme_colorTheme_unset. }
  assert (Hfirst : applySystemTheme getCurrentTheme config st
                   = applyTheme getCurrentTheme light st).
  { unfold applySystemTheme, get_string. rewrite Hbase, Hlight.
    unfold applyThemeByName.
    destruct (String.eqb_spec (lightTheme config) "") as [He|_]; [done|].
    by rewrite Hfind. }
  split; [exact Hfirst|]. split; [|exact Hafter].
  rewrite Hfirst. apply Hafter.
Qed.

(** X15. A deleted theme is skipped silently by the switcher: applying
    it by name changes nothing (no backup, no setting, no error), so does
    a time-based switch whose schedule selects it, and
    [checkThemeAvailability] answers false as soon as one of the two
    configured names is the deleted one. *)
Theorem deleted_theme_is_skipped themeName st :
  let st' := deleteTheme themeName st in
  applyThemeByName getCurrentTheme themeName st' = st'
  /\ (forall config currentHour,
        timeBasedThemeName config currentHour = themeName ->
        applyTimeBasedTheme getCurrentTheme config currentHour st' = st')
  /\ (get_string "termistyle.autoSwitch.lightTheme" "" st = Some themeName
      \/ get_string "termistyle.autoSwitch.darkTheme" "" st = Some themeName ->
      checkThemeAvailability st' = false).
Proof.
  cbn zeta.
  assert (Hskip : applyThemeByName getCurrentTheme themeName
                    (deleteTheme themeName st) = deleteTheme themeName st).
  { unfold applyThemeByName.
    destruct (String.eqb themeName ""); [done|].
    unfold deleteTheme at 1.
    change (savedThemes (with_savedThemes ?l ?s)) with l.
    by rewrite find_deleted_name. }
  split; [exact Hskip|]. split.
  - intros config currentHour Hname. unfold applyTimeBasedTheme.
    by rewrite Hname.
  - intros Hconfigured. unfold checkThemeAvailability.
    change (get_string ?k ?d (deleteTheme themeName st)) with (get_string k d st).
    change (savedThemes (deleteTheme themeName st))
      with (filter (fun t => theme_name t <> themeName) (savedThemes st)).
    destruct (get_string "termistyle.autoSwitch.lightTheme" "" st) as [light|] eqn:Hl;
      [|done].
    destruct (get_string "termistyle.autoSwitch.darkTheme" "" st) as [dark|] eqn:Hd;
      [|done].
    destruct (String.eqb light "" || String.eqb dark ""); [done|].
    destruct Hconfigured as [[= ->] | [= ->]].
    + by rewrite existsb_deleted_name.
    + rewrite existsb_deleted_name. apply andb_false_r.
Qed.

End SystemSwitchFacts.

Lemma system_switch_turns_dark_witness :
  applySystemTheme Sample.readBack SampleSwitcher.system_schedule
    (applySystemTheme Sample.readBack SampleSwitcher.system_schedule
       SampleSystem.light_base)
  = applyThemeByName Sample.readBack "Neon Glow"
      (applySystemTheme Sample.readBack SampleSwitcher.system_schedule
         SampleSystem.light_base).
Proof.
  assert (Hne : lightTheme SampleSwitcher.system_schedule <> "") by discriminate.
  exact (proj1 (proj2 (system_switch_turns_dark Sample.readBack
    SampleSwitcher.system_schedule SampleSystem.light_base "Default Light+"
    SampleSystem.solarDay eq_refl eq_refl Hne eq_refl))).
Defined.

Lemma deleted_theme_is_skipped_witness :
  checkThemeAvailability SampleSystem.configured = true
  /\ checkThemeAvailability (deleteTheme "Solar Day" SampleSystem.configured)
     = false.
Proof.
  split; [reflexivity|].
  apply (proj2 (proj2 (deleted_theme_is_skipped Sample.readBack "Solar Day"
                         SampleSystem.configured))).
  left. reflexivity.
Defined.

(** * Export and import of terminal schemes *)

Section Exchange.
Variable JSON_parse : string -> string + Json.
Variable JSON_stringify : Json -> string.
Variable JSON_stringify_theme : TerminalTheme -> string.

(** X16. Of the six formats [getSupportedFormats] offers, [exportTheme]
    writes three: termistyle, alacritty and windows-terminal. For these
    the file at the given path holds the exporter's text and no other file
    changes; every other format, the offered iterm2, hyper and kitty
    included, fails with "Unsupported export format" and writes nothing. *)
Theorem exportTheme_formats theme format filePath files :
  (format ∈ ["termistyle"; "alacritty"; "windows-terminal"] ->
   exists content,
     exportTheme JSON_stringify JSON_stringify_theme theme format filePath files
     = inr (<[filePath := content]> files)
     /\ (format = "alacritty" -> content = exportToAlacritty theme)
     /\ (format = "windows-terminal" ->
         content = exportToWindowsTerminal JSON_stringify theme))
  /\ (format ∉ ["termistyle"; "alacritty"; "windows-terminal"] ->
      exportTheme JSON_stringify JSON_stringify_theme theme format filePath files
      = inl ("Unsupported export format: " +:+ format))
  /\ Forall (fun offered =>
       format_extension offered <> None
       /\ exportTheme JSON_stringify JSON_stringify_theme theme offered
            filePath files
          = inl ("Unsupported export format: " +:+ offered))
       ["iterm2"; "hyper"; "kitty"].
Proof.
  split; [|split].
  - rewrite !elem_of_cons, elem_of_nil.
    intros [-> | [-> | [-> | []]]]; eexists; (split; [reflexivity|]);
      split; intros; by try discriminate.
  - rewrite !elem_of_cons, elem_of_nil. intros Hnot. unfold exportTheme.
    destruct (String.eqb_spec format "termistyle") as [->|_];
      [exfalso; apply Hnot; by left|].
    destruct (String.eqb_spec format "alacritty") as [->|_];
      [exfalso; apply Hnot; right; by left|].
    destruct (String.eqb_spec format "windows-terminal") as [->|_];
      [exfalso; apply Hnot; right; right; by left|].
    reflexivity.
  - repeat constructor; discriminate.
Qed.

Lemma importTheme_json created modified content filePath json :
  toLowerCase (path_extname filePath) = ".json" ->
  JSON_parse content = inr json ->
  importTheme JSON_parse created modified content filePath
  = importFromJSON JSON_parse created modified content filePath.
Proof. intros Hext _. unfold importTheme. by rewrite Hext. Qed.

(** X17. A theme exported as a Windows Terminal scheme and imported again
    from a [.json] file is recognised as such when its name, background
    and foreground are non-empty: the import has no warnings, keeps the
    name, and returns each of the 18 colours of the scheme under the key
    of the theme document (purple back to magenta), an empty colour
    replaced by the import's fallback. The selection colour and the
    border are not carried (the import sets its fixed values), and font
    and cursor are absent from the imported document. *)
Theorem windows_terminal_round_trip created modified theme filePath :
  toLowerCase (path_extname filePath) = ".json" ->
  JSON_parse (exportToWindowsTerminal JSON_stringify theme)
  = inr (windowsTerminalScheme theme) ->
  theme_name theme <> "" ->
  colors_background (theme_colors theme) <> "" ->
  colors_foreground (theme_colors theme) <> "" ->
  exists imported,
    importTheme JSON_parse created modified
      (exportToWindowsTerminal JSON_stringify theme) filePath = inr imported
    /\ imported_format imported = "windows-terminal"
    /\ imported_warnings imported = []
    /\ json_get "name" (imported_theme imported)
       = inr (Some (json_string (theme_name theme)))
    /\ Forall (fun '(_, key, field, fallback) =>
         imported_colour key imported
         = Some (json_string
                   (if String.eqb (field (theme_colors theme)) "" then fallback
                    else field (theme_colors theme))))
         windowsTerminalColours
    /\ imported_colour "selectionBackground" imported
       = Some (json_string "#ffffff40")
    /\ imported_colour "border" imported = Some (json_string "#333333")
    /\ json_get "font" (imported_theme imported) = inr None
    /\ json_get "cursor" (imported_theme imported) = inr None.
Proof.
  intros Hext Hparse Hname Hbg Hfg.
  exists (importFromWindowsTerminal created modified
            (windowsTerminalScheme theme) filePath).
  split.
  { rewrite (importTheme_json _ _ _ _ _ Hext Hparse).
    unfold importFromJSON. rewrite Hparse.
    destruct theme as [name ? ? ? ? ? ? ? colors ? ? ?].
    destruct colors as [bg fg sel selbg k0 k1 k2 k3 k4 k5 k6 k7 b0 b1 b2 b3 b4 b5 b6 b7 border tab].
    cbn [theme_name theme_colors colors_background
      colors_foreground] in Hname, Hbg, Hfg.
    unfold windowsTerminalScheme.
    cbn [theme_name theme_colors colors_background colors_foreground
      colors_ansiBlack colors_ansiRed colors_ansiGreen colors_ansiYellow
      colors_ansiBlue colors_ansiMagenta colors_ansiCyan colors_ansiWhite
      colors_ansiBrightBlack colors_ansiBrightRed colors_ansiBrightGreen
      colors_ansiBrightYellow colors_ansiBrightBlue colors_ansiBrightMagenta
      colors_ansiBrightCyan colors_ansiBrightWhite].
    change (json_get "name" (json_object ?l)) with
      (@inr unit _ (Some (json_string name))).
    cbv beta iota.
    change (json_get "background" (json_object ?l)) with
      (@inr unit _ (Some (json_string bg))).
    change (json_get "foreground" (json_object ?l)) with
      (@inr unit _ (Some (json_string fg))).
    cbv beta iota. cbn [json_truthy].
    destruct (String.eqb_spec name "") as [?|_]; [done|].
    destruct (String.eqb_spec bg "") as [?|_]; [done|].
    destruct (String.eqb_spec fg "") as [?|_]; [done|].
    reflexivity. }
  split; [reflexivity|]. split; [reflexivity|].
  destruct theme as [name ? ? ? ? ? ? ? colors ? ? ?].
  destruct colors as [bg fg sel selbg k0 k1 k2 k3 k4 k5 k6 k7 b0 b1 b2 b3 b4 b5 b6 b7 border tab].
    cbn [theme_name theme_colors] in *.
  split.
  { destruct name; [done|reflexivity]. }
  split.
  { unfold windowsTerminalColours.
    repeat match goal with
           | |- Forall _ (_ :: _) => constructor
           | |- Forall _ [] => constructor
           end;
      cbv beta iota;
      cbn [colors_background colors_foreground
        colors_ansiBlack colors_ansiRed colors_ansiGreen colors_ansiYellow
        colors_ansiBlue colors_ansiMagenta colors_ansiCyan colors_ansiWhite
        colors_ansiBrightBlack colors_ansiBrightRed colors_ansiBrightGreen
        colors_ansiBrightYellow colors_ansiBrightBlue colors_ansiBrightMagenta
        colors_ansiBrightCyan colors_ansiBrightWhite];
      match goal with
      | |- context [String.eqb ?s ""] => destruct s; reflexivity
      end. }
  repeat split; reflexivity.
Qed.


End Exchange.

Lemma exportTheme_formats_witness :
  exportTheme SampleCodec.print_scheme SampleCodec.print_theme Sample.neonGlow
    "kitty" "/themes/neon-glow.conf" ∅
  = inl "Unsupported export format: kitty".
Proof.
  apply (proj1 (proj2 (exportTheme_formats SampleCodec.print_scheme
    SampleCodec.print_theme Sample.neonGlow "kitty" "/themes/neon-glow.conf" ∅))).
  rewrite !elem_of_cons, elem_of_nil.
  intros [H | [H | [H | []]]]; discriminate H.
Defined.

Lemma windows_terminal_round_trip_witness :
  exists imported,
    importTheme SampleCodec.parse_scheme "T0" "T1"
      (exportToWindowsTerminal SampleCodec.print_scheme Sample.neonGlow)
      "/themes/neon-glow.json" = inr imported
    /\ imported_colour "ansiMagenta" imported
       = Some (json_string (colors_ansiMagenta (theme_colors Sample.neonGlow))).
Proof.
  assert (Hname : theme_name Sample.neonGlow <> "") by discriminate.
  assert (Hbg : colors_background (theme_colors Sample.neonGlow) <> "")
    by discriminate.
  assert (Hfg : colors_foreground (theme_colors Sample.neonGlow) <> "")
    by discriminate.
  destruct (windows_terminal_round_trip SampleCodec.parse_scheme
              SampleCodec.print_scheme "T0" "T1" Sample.neonGlow
              "/themes/neon-glow.json" eq_refl eq_refl Hname Hbg Hfg)
    as (imported & Himport & _ & _ & _ & Hcolours & _).
  exists imported. split; [exact Himport|].
  exact (proj1 (Forall_lookup _ _) Hcolours 7 _ eq_refl).
Defined.


(** * The customizer panel *)

Section PanelFacts.
Variable getCurrentTheme :
  gmap string Setting -> string -> string -> TerminalTheme.

(** X19. Only the messages [applyTheme] and [resetTheme] reach the
    settings. A [themeUpdate] changes the theme the panel remembers and
    nothing of the host (no setting, no saved theme, no backup, no clock
    reading); [getPresets] and [getSystemFonts] only answer the web view;
    and the five other message types of the interface ([saveTheme],
    [loadTheme], [exportTheme], [importTheme], [previewToggle]) are
    dropped without any effect. *)
Theorem handleMessage_preview_only message c st :
  message_type message <> type_applyTheme ->
  message_type message <> type_resetTheme ->
  snd (handleMessage getCurrentTheme message c st) = st
  /\ (message_type message ∈ [type_saveTheme; type_loadTheme; type_exportTheme;
                              type_importTheme; type_previewToggle] ->
      handleMessage getCurrentTheme message c st = (c, st))
  /\ (message_type message = type_themeUpdate ->
      outputs (fst (handleMessage getCurrentTheme message c st)) = outputs c
      /\ customizer_currentTheme (fst (handleMessage getCurrentTheme message c st))
         = match message_data message with
           | Some theme => Some theme
           | None => customizer_currentTheme c
           end).
Proof.
  intros Happly Hreset. destruct message as [type data].
  cbn [message_type message_data] in *. unfold handleMessage.
  cbn [message_type message_data].
  destruct type; try done; (split; [by destruct data|]);
    (split; [ rewrite !elem_of_cons, elem_of_nil;
              intros Hin; try reflexivity;
              exfalso; destruct Hin as [H | [H | [H | [H | [H | []]]]]];
              discriminate H
            | intros Htype; try discriminate Htype ]).
  by destruct data.
Qed.




End PanelFacts.

Lemma handleMessage_preview_only_witness :
  snd (handleMessage Sample.readBack
         {| message_type := type_themeUpdate;
            message_data := Some Sample.neonGlow |}
         {| customizer_currentTheme := None; outputs := [] |} Sample.fresh)
  = Sample.fresh.
Proof.
  assert (H1 : type_themeUpdate <> type_applyTheme) by discriminate.
  assert (H2 : type_themeUpdate <> type_resetTheme) by discriminate.
  exact (proj1 (handleMessage_preview_only Sample.readBack
    {| message_type := type_themeUpdate; message_data := Some Sample.neonGlow |}
    {| customizer_currentTheme := None; outputs := [] |} Sample.fresh H1 H2)).
Defined.


(** * Reading the settings back after an apply *)










Section ReadBack.
Variable getCurrentTheme :
  gmap string Setting -> string -> string -> TerminalTheme.










End ReadBack.



Section ReadBackFlags.
Variable getCurrentTheme :
  gmap string Setting -> string -> string -> TerminalTheme.



End ReadBackFlags.



Section ReadBackEditor.
Variable getCurrentTheme :
  gmap string Setting -> string -> string -> TerminalTheme.



End ReadBackEditor.





(** * Reading the settings back after a reset *)


Lemma lit_1_2_nearest : lit_1_2 = Js.div (Js.of_Z 12) (Js.of_Z 10).
Proof. by vm_compute. Qed.

Section ReadBackReset.
Variable getCurrentTheme :
  gmap string Setting -> string -> string -> TerminalTheme.

Lemma createBackup_configuration st :
  configuration (createBackup getCurrentTheme st) = configuration st.
Proof. reflexivity. Qed.










End ReadBackReset.

